(** * OpenPNM: continuous-integration workflows and example notebooks

    The repository consists of two GitHub Actions workflows (the
    [Examples] test workflow and the [Deploy to PyPI] workflow) and of
    Jupyter notebooks that are executed by [pytest --nbval].

    The workflows are data interpreted by the Actions runner, so they are
    embedded as values of record types that mirror the YAML, together with
    an executable interpreter for the part of the runner the workflows
    use: expression evaluation, step conditions, the job environment,
    shell scripts, and the actions named by [uses].  What the external
    tools (git, conda, pip, setup.py, the package index) answer is taken
    from a [world] record, and so is what bash does with a script line
    into which the runner has pasted text that bash does not take
    literally.

    The notebooks are sequences of calls into numpy and OpenPNM.  Their
    cells are embedded statement by statement over an abstract Python
    kernel, and the arithmetic that the thermal conduction notebook does
    itself is embedded as functions on lists of real numbers. *)

From Stdlib Require Import String Ascii List Bool Arith Lia Reals Lra.
From stdpp Require Import base strings list gmap.

(** ** Strings *)

Module Str.

Definition is_upper (c : ascii) : bool :=
  Nat.leb 65%nat (nat_of_ascii c) && Nat.leb (nat_of_ascii c) 90%nat.

Definition lower_ascii (c : ascii) : ascii :=
  if is_upper c then ascii_of_nat (nat_of_ascii c + 32)%nat else c.

(** ASCII case folding, as used by the comparisons of the expression
    language. *)
Fixpoint lower (s : string) : string :=
  match s with
  | EmptyString => EmptyString
  | String c s' => String (lower_ascii c) (lower s')
  end.

Fixpoint has_prefix (p s : string) : bool :=
  match p, s with
  | EmptyString, _ => true
  | String a p', String b s' =>
      if Ascii.eqb a b then has_prefix p' s' else false
  | String _ _, EmptyString => false
  end.

Fixpoint has_substring (item s : string) : bool :=
  has_prefix item s ||
  match s with
  | EmptyString => false
  | String _ s' => has_substring item s'
  end.

(** [${X//c}] for a one-character pattern [c]: every occurrence of [c]
    is deleted. *)
Fixpoint remove_char (c : ascii) (s : string) : string :=
  match s with
  | EmptyString => EmptyString
  | String a s' =>
      if Ascii.eqb a c then remove_char c s' else String a (remove_char c s')
  end.

(** A character that bash takes literally wherever it stands in an
    argument of a command: a letter, a digit, or one of [/ . _ - + @ % ,].
    Blanks, quotes, [$], [;], [&], [|], [<], [>], parentheses, braces,
    backquotes, [*], [?], [#], [~], [!], [:] and [=] are not in the
    list. *)
Definition plain_char (c : ascii) : bool :=
  let n := nat_of_ascii c in
  (Nat.leb 48%nat n && Nat.leb n 57%nat) ||
  (Nat.leb 65%nat n && Nat.leb n 90%nat) ||
  (Nat.leb 97%nat n && Nat.leb n 122%nat) ||
  existsb (Ascii.eqb c) ["/"; "."; "_"; "-"; "+"; "@"; "%"; ","]%char.

Fixpoint shell_plain (s : string) : bool :=
  match s with
  | EmptyString => true
  | String c s' => plain_char c && shell_plain s'
  end.

(** The double-quote character, and a string between double quotes. *)
Definition dquote : ascii := ascii_of_nat 34.

Definition quoted (s : string) : string :=
  String dquote (s +:+ String dquote "").

(** Splitting a command line into words: blanks separate words, double
    quotes group characters (blanks included) into the current word. *)
Fixpoint words_aux (s : string) (inq : bool) (cur : option string)
    (acc : list string) : list string :=
  match s with
  | EmptyString =>
      rev (match cur with Some t => t :: acc | None => acc end)
  | String c s' =>
      if inq then
        if Ascii.eqb c dquote
        then words_aux s' false cur acc
        else words_aux s' true (Some (default "" cur +:+ String c "")) acc
      else if Ascii.eqb c dquote
        then words_aux s' true (Some (default "" cur)) acc
      else if Ascii.eqb c " "%char
        then words_aux s' false None
               (match cur with Some t => t :: acc | None => acc end)
      else words_aux s' false (Some (default "" cur +:+ String c "")) acc
  end.

Definition shell_words (s : string) : list string :=
  words_aux s false None [].

End Str.

(** ** The expression language of workflow files *)

Module Expr.

Inductive operand :=
| Lit (s : string)
| EventRef                       (* github.event.ref *)
| HeadCommitMessage              (* github.event.head_commit.message *)
| EnvVar (x : string)            (* env.X *)
| MatrixVar (x : string)         (* matrix.X *)
| RunnerOs                       (* runner.os *)
| Secret (x : string)            (* secrets.X *)
| HashFiles (pat : string).      (* hashFiles('pat') *)

Inductive expr :=
| Contains (a b : operand)
| StartsWith (a b : operand)
| Not (e : expr)
| And (e1 e2 : expr).

Record context := {
  c_ref : string;
  c_msg : option string;
  c_env : gmap string string;
  c_matrix : list (string * string);
  c_os : string;
  c_secret : string -> string;
  c_hash : string -> string
}.

Fixpoint assoc (k : string) (l : list (string * string)) : option string :=
  match l with
  | [] => None
  | (k', v) :: l' => if String.eqb k k' then Some v else assoc k l'
  end.

(** Values are cast to strings; null and unset values become the empty
    string. *)
Definition eval_operand (c : context) (o : operand) : string :=
  match o with
  | Lit s => s
  | EventRef => c_ref c
  | HeadCommitMessage => default "" (c_msg c)
  | EnvVar x => default "" (c_env c !! x)
  | MatrixVar x => default "" (assoc x (c_matrix c))
  | RunnerOs => c_os c
  | Secret x => c_secret c x
  | HashFiles p => c_hash c p
  end.

(** [contains(search, item)] and [startsWith(s, v)] on strings.  The
    runner evaluates both without regard to letter case. *)
Definition contains (search item : string) : bool :=
  Str.has_substring (Str.lower item) (Str.lower search).

Definition startsWith (s v : string) : bool :=
  Str.has_prefix (Str.lower v) (Str.lower s).

Fixpoint eval (c : context) (e : expr) : bool :=
  match e with
  | Contains a b => contains (eval_operand c a) (eval_operand c b)
  | StartsWith a b => startsWith (eval_operand c a) (eval_operand c b)
  | Not e' => negb (eval c e')
  | And e1 e2 => eval c e1 && eval c e2
  end.

(** A string with [${{ ... }}] holes. *)
Inductive tpart := TLit (s : string) | TExp (o : operand).
Definition template := list tpart.

Definition eval_tpart (c : context) (p : tpart) : string :=
  match p with TLit s => s | TExp o => eval_operand c o end.

Definition eval_template (c : context) (t : template) : string :=
  String.concat "" (map (eval_tpart c) t).

End Expr.

(** ** The runner *)

Module Runner.
Import Expr.

(** *** Workflow files *)

(** The two command substitutions of the deploy workflow. *)
Inductive capture :=
| GitTagSortVTail1     (* $(git tag | sort -V | tail -1) *)
| PythonPrintVersion.  (* $(python -c "import sys;
                            sys.path.append('./openpnm');
                            from __version__ import __version__;
                            print(__version__)") *)

Inductive wpart :=
| WLit (s : string)
| WVar (x : string)                 (* $X *)
| WVarDel (x : string) (c : ascii)  (* ${X//c} *)
| WSub (k : capture)                (* $( ... ) *)
| WExp (o : operand).               (* ${{ ... }} *)

Definition word := list wpart.

Inductive cmd :=
| Ext (line : string)               (* an external program *)
| Echo (w : word)                   (* echo W *)
| SetEnv (x : string) (w : word)    (* echo ::set-env name=X::W *)
| IfStrEq (a b : word) (thn els : cmd).
                                    (* if [ A = B ]; then ..; else ..; fi *)

Record step := {
  s_name : template;
  s_if : option expr;
  s_uses : option string;
  s_with : list (string * template);
  s_env : list (string * string);
  s_run : list cmd
}.

Record job := {
  j_name : string;
  j_if : option expr;
  j_runs_on : template;
  j_shell : option string;          (* defaults.run.shell *)
  j_max_parallel : option nat;      (* strategy.max-parallel *)
  j_matrix : list (string * list string);
  j_steps : list step
}.

Record workflow := {
  wf_name : string;
  wf_on_push_tags : option (list string);  (* on.push.tags, if filtered *)
  wf_jobs : list (string * job)
}.

(** *** The world outside the runner *)

(** What bash does with a script line that holds pasted text which it
    does not take literally: the programs it starts, the set-env
    commands it prints, what becomes of the checked-out tree and of
    dist/, and whether the line ends with status 0.  A script has no
    credentials for the Actions cache or for the package index, so it
    changes neither. *)
Record effect := {
  e_lines : list string;
  e_env : list (string * string);
  e_tree : string -> string;
  e_dist : list string -> list string;
  e_ok : bool
}.

Record world := {
  w_ref : string;                   (* github.event.ref *)
  w_default : string;               (* the ref of the default branch *)
  w_msg : option string;            (* github.event.head_commit.message *)
  w_os : string;                    (* runner.os *)
  w_secret : string -> string;
  w_hash : string -> string -> string;
                                    (* hashFiles(pattern) in a tree *)
  w_remote_tags : list string;      (* the tags of the remote *)
  w_vle : string -> string -> bool; (* the order of sort -V *)
  w_version : string -> string;     (* __version__ in the tree of a ref *)
  w_conda : string -> gset string;  (* package files a conda command needs *)
  w_build : string -> list string;  (* what setup.py leaves in dist/ *)
  w_ok : string -> bool;            (* does this program or action
                                       complete without error *)
  w_bash : string -> effect         (* a line with pasted text *)
}.

(** Bash starts nothing and prints no command. *)
Definition no_effect : effect :=
  {| e_lines := []; e_env := []; e_tree := fun t => t;
     e_dist := fun d => d; e_ok := true |}.

(** State that outlives a run: the repository's Actions cache and the
    files on the package index.  A cache entry is kept under the ref of
    the run that saved it and its key. *)
Record shared := {
  cache : gmap (string * string) (gset string);
  index : gset string
}.

Record state := {
  env : gmap string string;         (* the job environment *)
  pending : list (string * string); (* set-env commands of this step *)
  tree : string;                    (* the ref checked out *)
  tags : list string;               (* tags of the local clone *)
  pkgs_dir : gset string;           (* ~/conda_pkgs_dir *)
  save_key : option (string * string);
                                    (* ref and key to save the cache
                                       under *)
  dist : list string;               (* dist/ *)
  trace : list string;              (* programs started so far *)
  sh : shared
}.

Definition fresh (s : shared) : state :=
  {| env := ∅; pending := []; tree := ""; tags := []; pkgs_dir := ∅;
     save_key := None; dist := []; trace := []; sh := s |}.

Definition set_env (e : gmap string string) (st : state) : state :=
  {| env := e; pending := pending st; tree := tree st; tags := tags st;
     pkgs_dir := pkgs_dir st; save_key := save_key st; dist := dist st;
     trace := trace st; sh := sh st |}.

Definition set_pending (p : list (string * string)) (st : state) : state :=
  {| env := env st; pending := p; tree := tree st; tags := tags st;
     pkgs_dir := pkgs_dir st; save_key := save_key st; dist := dist st;
     trace := trace st; sh := sh st |}.

Definition set_tree (t : string) (st : state) : state :=
  {| env := env st; pending := pending st; tree := t; tags := tags st;
     pkgs_dir := pkgs_dir st; save_key := save_key st; dist := dist st;
     trace := trace st; sh := sh st |}.

Definition set_tags (t : list string) (st : state) : state :=
  {| env := env st; pending := pending st; tree := tree st; tags := t;
     pkgs_dir := pkgs_dir st; save_key := save_key st; dist := dist st;
     trace := trace st; sh := sh st |}.

Definition set_pkgs_dir (d : gset string) (st : state) : state :=
  {| env := env st; pending := pending st; tree := tree st; tags := tags st;
     pkgs_dir := d; save_key := save_key st; dist := dist st;
     trace := trace st; sh := sh st |}.

Definition set_save_key (k : option (string * string)) (st : state)
    : state :=
  {| env := env st; pending := pending st; tree := tree st; tags := tags st;
     pkgs_dir := pkgs_dir st; save_key := k; dist := dist st;
     trace := trace st; sh := sh st |}.

Definition set_dist (d : list string) (st : state) : state :=
  {| env := env st; pending := pending st; tree := tree st; tags := tags st;
     pkgs_dir := pkgs_dir st; save_key := save_key st; dist := d;
     trace := trace st; sh := sh st |}.

Definition set_trace (t : list string) (st : state) : state :=
  {| env := env st; pending := pending st; tree := tree st; tags := tags st;
     pkgs_dir := pkgs_dir st; save_key := save_key st; dist := dist st;
     trace := t; sh := sh st |}.

Definition set_sh (s : shared) (st : state) : state :=
  {| env := env st; pending := pending st; tree := tree st; tags := tags st;
     pkgs_dir := pkgs_dir st; save_key := save_key st; dist := dist st;
     trace := trace st; sh := s |}.

(** *** External programs *)

Fixpoint insert_by (le : string -> string -> bool) (x : string)
    (l : list string) : list string :=
  match l with
  | [] => [x]
  | y :: l' => if le x y then x :: l else y :: insert_by le x l'
  end.

(** [sort -V], for the order [le], and [tail -1]. *)
Definition sort_V (le : string -> string -> bool) (l : list string)
    : list string :=
  foldr (insert_by le) [] l.

Definition tail_1 (l : list string) : string := List.last l "".

(** A list in which every element is below those after it. *)
Definition ascending (le : string -> string -> bool) (l : list string)
    : Prop :=
  forall i j a b, (i < j)%nat -> l !! i = Some a -> l !! j = Some b ->
                  le a b = true.

Definition capture_sem (w : world) (st : state) (k : capture) : string :=
  match k with
  | GitTagSortVTail1 => tail_1 (sort_V (w_vle w) (tags st))
  | PythonPrintVersion => w_version w (tree st)
  end.

(** The text of a command substitution, and the programs it starts. *)
Definition python_print_version : string :=
  "python -c " +:+
  Str.quoted "import sys; sys.path.append('./openpnm'); from __version__ import __version__; print(__version__)".

Definition capture_text (k : capture) : string :=
  match k with
  | GitTagSortVTail1 => "git tag | sort -V | tail -1"
  | PythonPrintVersion => python_print_version
  end.

Definition capture_programs (k : capture) : list string :=
  match k with
  | GitTagSortVTail1 => ["git tag"; "sort -V"; "tail -1"]
  | PythonPrintVersion => [python_print_version]
  end.

Definition ext_sem (w : world) (line : string) (st : state) : state :=
  if String.eqb line "git fetch --all --tags"
  then set_tags (w_remote_tags w) st
  else if Str.has_prefix "conda install " line
  then set_pkgs_dir (pkgs_dir st ∪ w_conda w line) st
  else if String.eqb line "python setup.py sdist bdist_wheel"
  then set_dist (dist st ++ w_build w (tree st)) st
  else st.

(** *** Scripts *)

Definition expand_part (w : world) (c : context) (st : state)
    (p : wpart) : string :=
  match p with
  | WLit s => s
  | WVar x => default "" (c_env c !! x)
  | WVarDel x a => Str.remove_char a (default "" (c_env c !! x))
  | WSub k => capture_sem w st k
  | WExp o => eval_operand c o
  end.

Definition expand (w : world) (c : context) (st : state) (wd : word)
    : string :=
  String.concat "" (map (expand_part w c st) wd).

(** The runner pastes the values of the [${{ ... }}] holes into the
    text of a script before bash reads it.  [paste] is the text of a
    word as bash reads it, [pasted] the values pasted into it, and
    [programs] the programs of its command substitutions. *)
Definition paste_part (c : context) (p : wpart) : string :=
  match p with
  | WLit s => s
  | WVar x => "$" +:+ x
  | WVarDel x a => "${" +:+ (x +:+ ("//" +:+ String a "}"))
  | WSub k => "$(" +:+ (capture_text k +:+ ")")
  | WExp o => eval_operand c o
  end.

Definition paste (c : context) (wd : word) : string :=
  String.concat "" (map (paste_part c) wd).

Definition pasted (c : context) (wd : word) : list string :=
  omap (fun p => match p with
                 | WExp o => Some (eval_operand c o)
                 | _ => None
                 end) wd.

Definition literal (c : context) (wd : word) : bool :=
  forallb Str.shell_plain (pasted c wd).

Definition programs (wd : word) : list string :=
  flat_map (fun p => match p with
                     | WSub k => capture_programs k
                     | _ => []
                     end) wd.

Definition started_programs (ps : list string) (st : state) : state :=
  match ps with
  | [] => st
  | _ => set_trace (trace st ++ ps) st
  end.

Definition apply_effect (e : effect) (st : state) : state :=
  {| env := env st; pending := pending st ++ e_env e;
     tree := e_tree e (tree st); tags := tags st;
     pkgs_dir := pkgs_dir st; save_key := save_key st;
     dist := e_dist e (dist st); trace := trace st ++ e_lines e;
     sh := sh st |}.

Definition bash_line (w : world) (line : string) (st : state)
    : state * bool :=
  (apply_effect (w_bash w line) st, e_ok (w_bash w line)).

(** A command returns the new state and whether its exit status is 0.
    Variables set through [set-env] are seen by later steps only.  The
    status of an [echo] is 0 whatever the status of the command
    substitutions in its arguments.  When the text pasted into a line is
    not literal for bash, what the line does is not what the file says
    but what the world says. *)
Fixpoint exec_cmd (w : world) (c : context) (k : cmd) (st : state)
    : state * bool :=
  match k with
  | Ext line =>
      let st1 := set_trace (trace st ++ [line]) st in
      if w_ok w line then (ext_sem w line st1, true) else (st1, false)
  | Echo wd =>
      if literal c wd
      then (started_programs (programs wd) st, true)
      else bash_line w ("echo " +:+ paste c wd) st
  | SetEnv x wd =>
      if literal c wd
      then (started_programs (programs wd)
              (set_pending (pending st ++ [(x, expand w c st wd)]) st),
            true)
      else bash_line w
             ("echo ::set-env name=" +:+ (x +:+ ("::" +:+ paste c wd))) st
  | IfStrEq a b thn els =>
      if literal c a && literal c b
      then
        let st1 := started_programs (programs a ++ programs b) st in
        if String.eqb (expand w c st a) (expand w c st b)
        then exec_cmd w c thn st1
        else exec_cmd w c els st1
      else bash_line w
             ("[ " +:+ (Str.quoted (paste c a) +:+
              (" = " +:+ (Str.quoted (paste c b) +:+ " ]")))) st
  end.

(** With [-e] the script stops at the first failing command; without it
    the script runs to its end and returns the status of its last
    command. *)
Fixpoint exec_script (errexit : bool) (w : world) (c : context)
    (ks : list cmd) (st : state) (last_ok : bool) : state * bool :=
  match ks with
  | [] => (st, last_ok)
  | k :: ks' =>
      let '(st1, ok) := exec_cmd w c k st in
      if errexit && negb ok then (st1, false)
      else exec_script errexit w c ks' st1 ok
  end.

(** The shell of a job: [bash -e {0}] unless [defaults.run.shell] says
    otherwise; then [-e] is on when a cluster of one-letter options has
    the letter. *)
Definition errexit_of (shell : option string) : bool :=
  match shell with
  | None => true
  | Some s =>
      existsb (fun wd => Str.has_prefix "-" wd &&
                         negb (Str.has_prefix "--" wd) &&
                         Str.has_substring "e" wd)
              (tl (Str.shell_words s))
  end.

(** *** Actions *)

(** Uploading to the package index: a file that is already there is
    skipped when [skip_existing] is set and is an error otherwise. *)
Fixpoint upload (skip : bool) (files : list string) (idx : gset string)
    : gset string * bool :=
  match files with
  | [] => (idx, true)
  | f :: fs =>
      if decide (f ∈ idx)
      then if skip then upload skip fs idx else (idx, false)
      else upload skip fs ({[f]} ∪ idx)
  end.

(** [actions/cache] restores the entry that the ref of the run has under
    the key and, when there is none, the one that the default branch
    has; entries of other refs are not seen. *)
Definition action_sem (uses : string) (w : world)
    (inputs : list (string * string)) (st : state) : state * bool :=
  if String.eqb uses "actions/checkout@v2" then
    (set_tags [] (set_tree (default (w_ref w) (assoc "ref" inputs)) st),
     true)
  else if String.eqb uses "actions/cache@v1" then
    let key := default "" (assoc "key" inputs) in
    match cache (sh st) !! (w_ref w, key) with
    | Some d => (set_pkgs_dir d st, true)
    | None =>
        match cache (sh st) !! (w_default w, key) with
        | Some d => (set_pkgs_dir d st, true)
        | None => (set_save_key (Some (w_ref w, key)) st, true)
        end
    end
  else if String.eqb uses "pypa/gh-action-pypi-publish@master" then
    let skip :=
      bool_decide (assoc "skip_existing" inputs = Some "true") in
    let '(idx, ok) := upload skip (dist st) (index (sh st)) in
    (set_sh {| cache := cache (sh st); index := idx |} st, ok)
  else (st, true).

(** The post step of [actions/cache]: after a successful job that missed
    the cache, the directory is saved under the ref of the run and the
    key. *)
Definition post_cache (ok : bool) (st : state) : state :=
  match save_key st with
  | Some k =>
      if ok then
        match cache (sh st) !! k with
        | Some _ => st
        | None =>
            set_sh {| cache := <[k := pkgs_dir st]> (cache (sh st));
                      index := index (sh st) |} st
        end
      else st
  | None => st
  end.

(** *** Steps and jobs *)

Inductive outcome := Success | Failure | Skipped.

Definition step_ctx (w : world) (combo : list (string * string))
    (s : step) (st : state) : context :=
  {| c_ref := w_ref w;
     c_msg := w_msg w;
     c_env := (list_to_map (s_env s) : gmap string string) ∪ env st;
     c_matrix := combo;
     c_os := w_os w;
     c_secret := w_secret w;
     c_hash := w_hash w (tree st) |}.

Definition commit_env (st : state) : state :=
  set_pending []
    (set_env (foldl (fun e kv => <[kv.1 := kv.2]> e) (env st) (pending st))
             st).

Definition step_body (errexit : bool) (w : world) (c : context) (s : step)
    (st : state) : state * bool :=
  match s_uses s with
  | Some u =>
      if w_ok w u
      then action_sem u w (map (fun kv => (kv.1, eval_template c kv.2))
                               (s_with s)) st
      else (st, false)
  | None => exec_script errexit w c (s_run s) st true
  end.

Definition run_log := list (step * outcome).

(** A step runs when no earlier step failed and its [if], when it has
    one, holds. *)
Definition run_step (errexit : bool) (w : world)
    (combo : list (string * string))
    (acc : state * bool * run_log) (s : step) : state * bool * run_log :=
  let '(st, ok, log) := acc in
  let c := step_ctx w combo s st in
  if ok && default true (eval c <$> s_if s) then
    let '(st1, r) := step_body errexit w c s st in
    (commit_env st1, r, log ++ [(s, if r then Success else Failure)])
  else (st, ok, log ++ [(s, Skipped)]).

Definition run_steps (errexit : bool) (w : world)
    (combo : list (string * string)) (steps : list step) (st : state)
    : state * bool * run_log :=
  foldl (run_step errexit w combo) (st, true, []) steps.

Definition job_ctx (w : world) : context :=
  {| c_ref := w_ref w; c_msg := w_msg w; c_env := ∅; c_matrix := [];
     c_os := w_os w; c_secret := w_secret w; c_hash := fun _ => "" |}.

Definition job_enabled (w : world) (j : job) : bool :=
  default true (eval (job_ctx w) <$> j_if j).

Record result := {
  r_conclusion : outcome;
  r_log : run_log;
  r_final : state
}.

(** One run of a job, for one combination of the matrix, on a fresh
    runner. *)
Definition run_job (w : world) (j : job) (combo : list (string * string))
    (s : shared) : result :=
  if job_enabled w j then
    let '(st, ok, log) :=
      run_steps (errexit_of (j_shell j)) w combo (j_steps j) (fresh s) in
    {| r_conclusion := if ok then Success else Failure;
       r_log := log;
       r_final := post_cache ok st |}
  else {| r_conclusion := Skipped; r_log := []; r_final := fresh s |}.

Fixpoint expand_matrix (m : list (string * list string))
    : list (list (string * string)) :=
  match m with
  | [] => [[]]
  | (k, vs) :: m' =>
      flat_map (fun v => map (cons (k, v)) (expand_matrix m')) vs
  end.

Definition ran (o : outcome) : bool :=
  match o with Skipped => false | _ => true end.

(** The steps of a run that were started. *)
Definition executed (r : result) : list step :=
  map fst (List.filter (fun so => ran so.2) (r_log r)).

(** The command lines and actions of a step whose exit status the
    runner looks at, and the assumption that those of some steps
    complete without error.  The programs of a command substitution
    are not among them: they are arguments of an [echo], whose status
    is 0 whatever theirs is.  [cmd_programs] has every program that
    the file names, those included; what a line with pasted text
    starts is in no such list, it is known from the world only. *)
Fixpoint cmd_tools (k : cmd) : list string :=
  match k with
  | Ext line => [line]
  | IfStrEq _ _ thn els => cmd_tools thn ++ cmd_tools els
  | Echo _ | SetEnv _ _ => []
  end.

Fixpoint cmd_programs (k : cmd) : list string :=
  match k with
  | Ext line => [line]
  | Echo wd | SetEnv _ wd => programs wd
  | IfStrEq a b thn els =>
      programs a ++ programs b ++ cmd_programs thn ++ cmd_programs els
  end.

Definition step_programs (s : step) : list string :=
  flat_map cmd_programs (s_run s).

Definition step_tools (s : step) : list string :=
  match s_uses s with
  | Some u => [u]
  | None => flat_map cmd_tools (s_run s)
  end.

Definition tools_ok (w : world) (steps : list step) : bool :=
  forallb (w_ok w) (flat_map step_tools steps).

End Runner.

(** ** The [Examples] workflow *)

Module Examples.
Import Expr Runner.

Definition plain (s : string) : template := [TLit s].

Definition checkout : step :=
  {| s_name := []; s_if := None;
     s_uses := Some "actions/checkout@v2";
     s_with := []; s_env := []; s_run := [] |}.

Definition setup_python : step :=
  {| s_name := [TLit "Set up Python "; TExp (MatrixVar "python-version")];
     s_if := None;
     s_uses := Some "actions/setup-python@v2";
     s_with := [("python-version", [TExp (MatrixVar "python-version")])];
     s_env := []; s_run := [] |}.

Definition cache_conda : step :=
  {| s_name := plain "Cache conda"; s_if := None;
     s_uses := Some "actions/cache@v1";
     s_with :=
       [("path", plain "~/conda_pkgs_dir");
        ("key", [TExp RunnerOs; TLit "-conda-";
                 TExp (EnvVar "CACHE_NUMBER"); TLit "-";
                 TExp (HashFiles "**/conda_requirements.txt")])];
     s_env := [("CACHE_NUMBER", "0")];
     s_run := [] |}.

Definition setup_conda : step :=
  {| s_name := plain "Set up conda"; s_if := None;
     s_uses := Some "goanpeca/setup-miniconda@v1";
     s_with :=
       [("auto-update-conda", plain "true");
        ("python-version", [TExp (MatrixVar "python-version")]);
        ("condarc-file", plain "requirements/.condarc");
        ("allow-softlinks", plain "true");
        ("channel-priority", plain "flexible");
        ("show-channel-urls", plain "false");
        ("use-only-tar-bz2", plain "true");
        ("auto-activate-base", plain "true")];
     s_env := []; s_run := [] |}.

Definition install_dependencies : step :=
  {| s_name := plain "Install dependencies (conda)"; s_if := None;
     s_uses := None; s_with := []; s_env := [];
     s_run :=
       [Ext "conda install --file requirements/conda_requirements.txt";
        Ext "conda install --file requirements/test_requirements.txt";
        Ext "conda install pyamg";
        Ext "pip install -e .";
        Ext "conda install porespy"] |}.

(** The command of the test step is one plain scalar written over three
    lines, which YAML joins with single blanks. *)
Definition pytest_line : string :=
  String.concat " "
    ["pytest --nbval examples/";
     "--ignore=" +:+ Str.quoted "examples/paper_recreations/Blunt et al. (2013)";
     "--ignore=" +:+ Str.quoted "examples/paper_recreations/Wu et al. (2010)"].

Definition running_tests : step :=
  {| s_name := plain "Running tests"; s_if := None;
     s_uses := None; s_with := []; s_env := [];
     s_run := [Ext pytest_line] |}.

Definition build : job :=
  {| j_name := "";
     j_if :=
       Some (And (Not (Contains HeadCommitMessage (Lit "ci min")))
                 (Not (Contains HeadCommitMessage (Lit "ci skip"))));
     j_runs_on := [TExp (MatrixVar "operating-system")];
     j_shell := Some "bash -l {0}";
     j_max_parallel := Some 4;
     j_matrix := [("python-version", ["3.7"]);
                  ("operating-system", ["ubuntu-latest"])];
     j_steps := [checkout; setup_python; cache_conda; setup_conda;
                 install_dependencies; running_tests] |}.

Definition examples : workflow :=
  {| wf_name := "Examples";
     wf_on_push_tags := None;
     wf_jobs := [("build", build)] |}.

(** The runs of the job for an event: one per combination of the
    matrix, each on its own runner; the shared state is threaded through
    them in order. *)
Definition run_all (w : world) (j : job) (s : shared)
    : list result * shared :=
  foldl (fun acc combo =>
           let r := run_job w j combo acc.2 in
           (acc.1 ++ [r], sh (r_final r)))
        ([], s) (expand_matrix (j_matrix j)).

(** The key under which a run looks up the conda cache. *)
Definition cache_key (w : world) (tree : string) : string :=
  w_os w +:+ ("-conda-" +:+ ("0" +:+ ("-" +:+
  w_hash w tree "**/conda_requirements.txt"))).

(** The entry that the cache step of a run restores: that of the ref
    of the run under its key or, when there is none, that of the
    default branch. *)
Definition visible (w : world) (s : shared) : option (gset string) :=
  match cache s !! (w_ref w, cache_key w (w_ref w)) with
  | Some d => Some d
  | None => cache s !! (w_default w, cache_key w (w_ref w))
  end.

(** The conda commands of the job, and the package directory they leave
    when they start from the directory [d]. *)
Definition conda_commands : list string :=
  ["conda install --file requirements/conda_requirements.txt";
   "conda install --file requirements/test_requirements.txt";
   "conda install pyamg";
   "conda install porespy"].

Definition installed (w : world) (d : gset string) : gset string :=
  foldl (fun acc c => acc ∪ w_conda w c) d conda_commands.

(** Two pushes that leave [conda_requirements.txt] as it is, between
    which a new numpy appears on the channel. *)
Definition push (msg : string) (numpy : string) : world :=
  {| w_ref := "refs/heads/dev";
     w_default := "refs/heads/dev";
     w_msg := Some msg;
     w_os := "Linux";
     w_secret := fun _ => "";
     w_hash := fun _ _ => "3f2a";
     w_remote_tags := [];
     w_vle := fun _ _ => true;
     w_version := fun _ => "2.4.0";
     w_conda := fun c =>
       if String.eqb c
            "conda install --file requirements/conda_requirements.txt"
       then {[numpy]} else ∅;
     w_build := fun _ => [];
     w_ok := fun _ => true;
     w_bash := fun _ => no_effect |}.

Definition first_push : world := push "Add notebook" "numpy-1.18.5.tar.bz2".

Definition combo : list (string * string) :=
  [("python-version", "3.7"); ("operating-system", "ubuntu-latest")].

Definition empty_shared : shared := {| cache := ∅; index := ∅ |}.

(** The arguments of a command line that name ignored directories. *)
Definition ignored (argv : list string) : list string :=
  omap (fun a => if Str.has_prefix "--ignore=" a
                 then Some (String.substring 9 (String.length a - 9) a)
                 else None) argv.

End Examples.

(** ** The [Deploy to PyPI] workflow *)

Module Deploy.
Import Expr Runner.

Definition plain (s : string) : template := [TLit s].

Definition checkout : step :=
  {| s_name := []; s_if := None;
     s_uses := Some "actions/checkout@v2";
     s_with := [("ref", plain "release")];
     s_env := []; s_run := [] |}.

Definition setup_python : step :=
  {| s_name := plain "Set up Python"; s_if := None;
     s_uses := Some "actions/setup-python@v2";
     s_with := [("python-version", plain "3.7")];
     s_env := []; s_run := [] |}.

Definition set_env_variables : step :=
  {| s_name := plain "Set env variables"; s_if := None;
     s_uses := None; s_with := []; s_env := [];
     s_run :=
       [Ext "git fetch --all --tags";
        SetEnv "TAG" [WSub GitTagSortVTail1];
        SetEnv "VER" [WSub PythonPrintVersion]] |}.

Definition set_tag_mismatch : step :=
  {| s_name := plain "Set env variables (for tag mismatch)"; s_if := None;
     s_uses := None; s_with := []; s_env := [];
     s_run :=
       [Echo [WVar "TAG"; WLit " "; WVar "VER"];
        IfStrEq [WVarDel "TAG" "v"] [WVar "VER"]
          (SetEnv "TAG_MISMATCH" [WLit "false"])
          (SetEnv "TAG_MISMATCH" [WLit "true"])] |}.

Definition install_dependencies : step :=
  {| s_name := plain "Install dependencies"; s_if := None;
     s_uses := None; s_with := []; s_env := [];
     s_run :=
       [Ext "python -m pip install --upgrade pip";
        Ext "pip install setuptools wheel twine";
        Echo [WExp EventRef];
        Echo [WVar "TAG_MISMATCH"]] |}.

Definition build_distribution : step :=
  {| s_name := plain "Build distribution 📦"; s_if := None;
     s_uses := None; s_with := []; s_env := [];
     s_run := [Ext "python setup.py sdist bdist_wheel"] |}.

Definition publish : step :=
  {| s_name := plain "Publish distribution 📦 to PyPI";
     s_if :=
       Some (And (StartsWith EventRef (Lit "refs/tags"))
                 (Contains (EnvVar "TAG_MISMATCH") (Lit "false")));
     s_uses := Some "pypa/gh-action-pypi-publish@master";
     s_with := [("user", plain "__token__");
                ("password", [TExp (Secret "PYPI_TOKEN")]);
                ("skip_existing", plain "true")];
     s_env := []; s_run := [] |}.

Definition deploy : job :=
  {| j_name := "Publish 🐍 📦 to PyPI";
     j_if := None;
     j_runs_on := plain "ubuntu-latest";
     j_shell := None;
     j_max_parallel := None;
     j_matrix := [];
     j_steps := [checkout; setup_python; set_env_variables;
                 set_tag_mismatch; install_dependencies;
                 build_distribution; publish] |}.

Definition deploy_to_pypi : workflow :=
  {| wf_name := "🐍 Deploy to PyPI";
     wf_on_push_tags := Some ["*"];
     wf_jobs := [("deploy", deploy)] |}.

Definition run (w : world) (s : shared) : result :=
  run_job w deploy [] s.

Definition before_publish : list step :=
  [checkout; setup_python; set_env_variables; set_tag_mismatch;
   install_dependencies; build_distribution].

(** The steps that set [TAG], [VER] and [TAG_MISMATCH]. *)
Definition gate_steps : list step :=
  [checkout; setup_python; set_env_variables; set_tag_mismatch].

(** The third line of the script of [install_dependencies] as bash
    reads it: the runner has pasted the pushed ref into it. *)
Definition pasted_line (w : world) : string := "echo " +:+ w_ref w.

(** The step that the workflow file keeps in comments, as it would
    read if it were enabled. *)
Definition delete_tag_step : step :=
  {| s_name := plain "Delete tag if doesn't match with version";
     s_if := Some (Contains (EnvVar "TAG_MISMATCH") (Lit "true"));
     s_uses := None; s_with := []; s_env := [];
     s_run :=
       [Ext ("git config --local user.email " +:+
             Str.quoted "action@github.com");
        Ext ("git config --local user.name " +:+
             Str.quoted "GitHub Action");
        Ext "REPOSITORY=${INPUT_REPOSITORY:-$GITHUB_REPOSITORY}";
        Ext ("remote_repo=" +:+
             Str.quoted "https://${GITHUB_ACTOR}:${{ secrets.GITHUB_TOKEN }}@github.com/${REPOSITORY}.git");
        Ext ("git push " +:+ Str.quoted "${remote_repo}" +:+
             " :refs/tags/$TAG")] |}.

(** What the step [set_tag_mismatch] compares. *)
Definition newest_tag (w : world) : string :=
  tail_1 (sort_V (w_vle w) (w_remote_tags w)).

Definition tag_matches (w : world) : bool :=
  String.eqb (Str.remove_char "v" (newest_tag w)) (w_version w "release").

(** An order that agrees with [sort -V] on tags of the form vX.Y.Z: the
    numbers in the two names are compared from left to right.  It is
    used for examples only; the runner takes the order from the
    world. *)
Definition digit_of (c : ascii) : option N :=
  let n := N_of_ascii c in
  if N.leb 48 n && N.leb n 57 then Some (n - 48)%N else None.

Fixpoint components (s : string) (cur : option N) : list N :=
  match s with
  | EmptyString => match cur with Some n => [n] | None => [] end
  | String c s' =>
      match digit_of c with
      | Some d => components s' (Some (10 * default 0 cur + d)%N)
      | None =>
          match cur with
          | Some n => n :: components s' None
          | None => components s' None
          end
      end
  end.

Fixpoint lex_le (a b : list N) : bool :=
  match a, b with
  | [], _ => true
  | _ :: _, [] => false
  | x :: a', y :: b' =>
      if N.ltb x y then true
      else if N.ltb y x then false
      else lex_le a' b'
  end.

Definition version_le (a b : string) : bool :=
  lex_le (components a None) (components b None).

(** A push of the tag v1.9.0 to a repository that also has the tag
    v2.0.0 and whose release branch is at version 2.0.0; every tool
    works. *)
Definition old_tag_push (le : string -> string -> bool) : world :=
  {| w_ref := "refs/tags/v1.9.0";
     w_default := "refs/heads/dev";
     w_msg := None;
     w_os := "Linux";
     w_secret := fun _ => "";
     w_hash := fun _ _ => "";
     w_remote_tags := ["v1.9.0"; "v2.0.0"];
     w_vle := le;
     w_version := fun r => if String.eqb r "release" then "2.0.0"
                           else "1.9.0";
     w_conda := fun _ => ∅;
     w_build := fun _ => ["openpnm-2.0.0.tar.gz";
                          "openpnm-2.0.0-py3-none-any.whl"];
     w_ok := fun _ => true;
     w_bash := fun _ => no_effect |}.

Definition empty_shared : shared := {| cache := ∅; index := ∅ |}.

(** The package index after version 2.0.0 has been published. *)
Definition published : shared :=
  {| cache := ∅;
     index := {["openpnm-2.0.0.tar.gz"; "openpnm-2.0.0-py3-none-any.whl"]} |}.

(** A command line that deletes a tag: [git push] with [--delete],
    [-d], [--mirror], [--prune] or a refspec that has no source
    ([:name]), and [git tag] with [-d] or [--delete]. *)
Definition deletes_tag (line : string) : bool :=
  match Str.shell_words line with
  | "git" :: "push" :: args =>
      existsb (fun a => String.eqb a "--delete" || String.eqb a "-d" ||
                        String.eqb a "--mirror" || String.eqb a "--prune" ||
                        Str.has_prefix ":" a) args
  | "git" :: "tag" :: args =>
      existsb (fun a => String.eqb a "--delete" || String.eqb a "-d") args
  | _ => false
  end.

End Deploy.

(** ** The example notebooks *)

Module Notebook.

(** A statement of a code cell, by what it does; the text is the source
    line. *)
Inductive stmt :=
| CommentLine (text : string)          (* # ... *)
| MagicLine (text : string)            (* %matplotlib inline *)
| ImportLine (text : string)           (* import ... as ... *)
| SeedCall (n : nat)                   (* np.random.seed(n) *)
| PrecisionCall (p : nat)           (* np.set_printoptions(precision=p) *)
| LibCall (text : string)              (* a call into OpenPNM *)
| PureCode (text : string)             (* Python and numpy on the namespace *)
| PrintCall (text : string)            (* print(...) *)
| PlotCall (text : string).            (* a call that draws a figure *)

Record cell := { body : list stmt }.

Record notebook := { title : string; cells : list cell }.

Definition code (b : list stmt) : cell := {| body := b |}.

Definition loglevel : stmt :=
  LibCall ("ws.settings[" +:+ Str.quoted "loglevel" +:+ "] = 40").

Definition capillary_pressure_curves : notebook :=
  {| title := "Simulating capillary pressure curves using Porosimetry";
     cells :=
       [code [ImportLine "import numpy as np";
              ImportLine "import openpnm as op";
              SeedCall 10;
              LibCall "ws = op.Workspace()";
              loglevel;
              PrecisionCall 5];
        code [LibCall "pn = op.network.Cubic(shape=[20, 20, 20], spacing=0.00005)"];
        code [LibCall "geo = op.geometry.StickAndBall(network=pn, pores=pn.Ps, throats=pn.Ts)"];
        code [LibCall "hg = op.phases.Mercury(network=pn, name='mercury')"];
        code [LibCall "phys = op.physics.GenericPhysics(network=pn, phase=hg, geometry=geo)";
              LibCall "phys.add_model(propname='throat.entry_pressure', model=op.models.physics.capillary_pressure.washburn)"];
        code [LibCall "mip = op.algorithms.Porosimetry(network=pn, phase=hg)";
              LibCall "mip.set_inlets(pores=pn.pores('left'))";
              LibCall "mip.run()"];
        code [CommentLine "# NBVAL_IGNORE_OUTPUT";
              PlotCall "fig = mip.plot_intrusion_curve()"];
        code [LibCall "Pc, Snwp = mip.get_intrusion_data()";
              PrintCall "print(Pc, Snwp)"];
        code [CommentLine "# NBVAL_IGNORE_OUTPUT";
              ImportLine "import matplotlib.pyplot as plt";
              PlotCall "fig = plt.plot(Pc, Snwp, 'r*-')"]] |}.

Definition fickian_diffusion : notebook :=
  {| title := "Fickian Diffusion";
     cells :=
       [code [ImportLine "import numpy as np";
              ImportLine "import openpnm as op";
              MagicLine "%matplotlib inline";
              SeedCall 10;
              LibCall "ws = op.Workspace()";
              loglevel;
              PrecisionCall 5];
        code [LibCall "net = op.network.Cubic(shape=[1, 10, 10], spacing=1e-5)"];
        code [LibCall "geom = op.geometry.StickAndBall(network=net, pores=net.Ps, throats=net.Ts)"];
        code [LibCall "air = op.phases.Air(network=net)"];
        code [LibCall "phys_air = op.physics.Standard(network=net, phase=air, geometry=geom)"];
        code [LibCall "fd = op.algorithms.FickianDiffusion(network=net, phase=air)"];
        code [LibCall "inlet  = net.pores('left')";
              LibCall "outlet = net.pores('right')";
              LibCall "fd.set_value_BC(pores=inlet, values=1.0)";
              LibCall "fd.set_value_BC(pores=outlet, values=0.0)"];
        code [LibCall "fd.run()"];
        code [PrintCall "print(fd.settings)"];
        code [LibCall "c = fd['pore.concentration']";
              PrintCall "print(c)"];
        code [PrintCall "print('Network shape:', net._shape)";
              PureCode "c2d = c.reshape((net._shape))"];
        code [CommentLine "# NBVAL_IGNORE_OUTPUT";
              ImportLine "import matplotlib.pyplot as plt";
              PlotCall "plt.imshow(c2d[0,:,:]);";
              PlotCall "plt.title('Concentration (mol/m$^3$)')";
              PlotCall "plt.colorbar()"];
        code [LibCall "rate_inlet = fd.rate(pores=inlet)[0]";
              PrintCall "print(f'Mass flow rate from inlet: {rate_inlet:.5e} mol/s')"]] |}.

Definition thermal_conduction : notebook :=
  {| title := "Thermal Conduction";
     cells :=
       [code [MagicLine "%matplotlib inline";
              ImportLine "import numpy as np";
              ImportLine "import scipy as sp";
              ImportLine "import openpnm as op";
              SeedCall 10;
              LibCall "ws = op.Workspace()";
              loglevel;
              PrecisionCall 5];
        code [PureCode "divs = [10, 50]";
              PureCode "Lc = 0.1";
              LibCall "pn = op.network.Cubic(shape=divs, spacing=Lc)";
              LibCall "pn.add_boundary_pores(['left', 'right', 'front', 'back'])"];
        code [CommentLine "# Create Phase object and associate with a Physics object";
              LibCall "Cu = op.phases.GenericPhase(network=pn)"];
        code [CommentLine "# Add a unit conductance to all connections";
              LibCall "Cu['throat.thermal_conductance'] = 1";
              CommentLine "# Overwrite boundary conductances since those connections are half as long";
              LibCall "Ps = pn.pores('*boundary')";
              LibCall "Ts = pn.find_neighbor_throats(pores=Ps)";
              LibCall "Cu['throat.thermal_conductance'][Ts] = 2"];
        code [CommentLine "# Setup Algorithm object";
              LibCall "alg = op.algorithms.FourierConduction(network=pn)";
              LibCall "alg.setup(phase=Cu)";
              LibCall "inlets = pn.pores('back_boundary')";
              LibCall "outlets = pn.pores(['front_boundary', 'left_boundary', 'right_boundary'])";
              LibCall "T_in = 30*np.sin(np.pi*pn['pore.coords'][inlets, 1]/5)+50";
              LibCall "alg.set_value_BC(values=T_in, pores=inlets)";
              LibCall "alg.set_value_BC(values=50, pores=outlets)";
              LibCall "alg.run()"];
        code [CommentLine "# NBVAL_IGNORE_OUTPUT";
              ImportLine "import matplotlib.pyplot as plt";
              LibCall "sim = alg['pore.temperature'][pn.pores('internal')]";
              PureCode "temp_map = np.reshape(a=sim, newshape=divs)";
              PlotCall "plt.subplots(1, 1, figsize=(10, 5))";
              PlotCall "plt.imshow(temp_map, cmap=plt.cm.plasma);";
              PlotCall "plt.colorbar();"];
        code [PrintCall ("print(f" +:+ Str.quoted
                "T_average (numerical): {alg['pore.temperature'][pn.pores('internal')].mean():.5f}"
                +:+ ")")];
        code [CommentLine "# Calculate analytical solution over the same domain spacing";
              LibCall "X = pn['pore.coords'][:, 0]";
              LibCall "Y = pn['pore.coords'][:, 1]";
              PureCode "soln = 30*np.sinh(np.pi*X/5)/np.sinh(np.pi/5)*np.sin(np.pi*Y/5) + 50";
              LibCall "soln = soln[pn.pores('internal')]";
              PureCode "soln = np.reshape(soln, (divs[0], divs[1]))"];
        code [CommentLine "# NBVAL_IGNORE_OUTPUT";
              PlotCall "plt.subplots(1, 1, figsize=(10, 5))";
              PlotCall "plt.imshow(soln, cmap=plt.cm.plasma);";
              PlotCall "plt.colorbar();"];
        code [PrintCall ("print(f" +:+ Str.quoted
                "T_average (analytical): {soln.mean():.5f}" +:+ ")")];
        code [CommentLine "# NBVAL_IGNORE_OUTPUT";
              PureCode "diff = soln - temp_map";
              PlotCall "plt.subplots(1, 1, figsize=(10, 5))";
              PlotCall "plt.imshow(diff, cmap=plt.cm.plasma);";
              PlotCall "plt.colorbar();"];
        code [PrintCall ("print(f" +:+ Str.quoted
                "Minimum error: {diff.min():.5f}, maximum error: {diff.max():.5f}"
                +:+ ")")]] |}.

Definition notebooks : list notebook :=
  [capillary_pressure_curves; fickian_diffusion; thermal_conduction].

(** *** What the cells of a notebook say *)


Definition is_plot (s : stmt) : bool :=
  match s with PlotCall _ => true | _ => false end.


Definition is_marker (s : stmt) : bool :=
  match s with
  | CommentLine t => String.eqb t "# NBVAL_IGNORE_OUTPUT"
  | _ => false
  end.

(** nbval does not compare the outputs of a cell that carries the
    marker. *)
Definition ignores_output (c : cell) : bool := existsb is_marker (body c).

Definition draws (c : cell) : bool := existsb is_plot (body c).







Definition plots_marked (nb : notebook) : bool :=
  forallb (fun c => implb (draws c) (ignores_output c)) (cells nb).


(** *** Executing a notebook *)

(** The Python kernel with numpy and OpenPNM loaded.  A library call
    may draw from numpy's global generator; printing renders values at
    the current precision; a figure also depends on where it is drawn
    (backend, fonts, object addresses). *)
Record kernel := {
  rng : Type;
  heap : Type;
  place : Type;
  empty_heap : heap;
  seeded : nat -> rng;
  lib : string -> rng * heap -> rng * heap;
  pure : string -> heap -> heap;
  render : string -> nat -> heap -> string;
  figure : string -> place -> heap -> string
}.

Record kstate (K : kernel) := {
  k_rng : rng K;
  k_prec : nat;
  k_heap : heap K
}.
Arguments k_rng {K}.
Arguments k_prec {K}.
Arguments k_heap {K}.

Inductive output := Text (s : string) | Figure (s : string).

Definition exec_stmt (K : kernel) (v : place K) (s : stmt)
    (st : kstate K) : kstate K * list output :=
  match s with
  | CommentLine _ | MagicLine _ | ImportLine _ => (st, [])
  | SeedCall n =>
      ({| k_rng := seeded K n; k_prec := k_prec st;
          k_heap := k_heap st |}, [])
  | PrecisionCall p =>
      ({| k_rng := k_rng st; k_prec := p; k_heap := k_heap st |}, [])
  | LibCall t =>
      let '(r, h) := lib K t (k_rng st, k_heap st) in
      ({| k_rng := r; k_prec := k_prec st; k_heap := h |}, [])
  | PureCode t =>
      ({| k_rng := k_rng st; k_prec := k_prec st;
          k_heap := pure K t (k_heap st) |}, [])
  | PrintCall t => (st, [Text (render K t (k_prec st) (k_heap st))])
  | PlotCall t =>
      ({| k_rng := k_rng st; k_prec := k_prec st;
          k_heap := pure K t (k_heap st) |},
       [Figure (figure K t v (k_heap st))])
  end.

Fixpoint exec_stmts (K : kernel) (v : place K) (ss : list stmt)
    (st : kstate K) : kstate K * list output :=
  match ss with
  | [] => (st, [])
  | s :: ss' =>
      let '(st1, o1) := exec_stmt K v s st in
      let '(st2, o2) := exec_stmts K v ss' st1 in
      (st2, o1 ++ o2)
  end.

Fixpoint exec_cells (K : kernel) (v : place K) (cs : list cell)
    (st : kstate K) : list (cell * list output) :=
  match cs with
  | [] => []
  | c :: cs' =>
      let '(st1, o) := exec_stmts K v (body c) st in
      (c, o) :: exec_cells K v cs' st1
  end.

(** A fresh kernel: the generator is seeded from the entropy of the
    system, the print precision is numpy's default. *)
Definition start (K : kernel) (entropy : rng K) : kstate K :=
  {| k_rng := entropy; k_prec := 8; k_heap := empty_heap K |}.

Definition exec (K : kernel) (nb : notebook) (entropy : rng K)
    (v : place K) : list (cell * list output) :=
  exec_cells K v (cells nb) (start K entropy).

(** What nbval compares with the stored outputs. *)
Definition checked (run : list (cell * list output)) : list (list output) :=
  map snd (List.filter (fun co => negb (ignores_output co.1)) run).





(** A small kernel for examples: the generator is a counter, a library
    call stores the next number, printing shows the parity of the last
    number stored, a figure shows where it was drawn. *)
Definition counter_kernel : kernel :=
  {| rng := nat; heap := list nat; place := bool;
     empty_heap := [];
     seeded := fun n => n;
     lib := fun _ rh => (S rh.1, rh.1 :: rh.2);
     pure := fun _ h => h;
     render := fun _ p h =>
       match h with
       | [] => "[]"
       | x :: _ => if Nat.even x then "even" else "odd"
       end;
     figure := fun _ v _ => if v then "png-a" else "png-b" |}.

End Notebook.

(** ** The arithmetic of the thermal conduction notebook *)

Module Thermal.
Local Open Scope R_scope.

(** What the notebook takes from OpenPNM: [pn['pore.coords']],
    [pn.pores('internal')] and [alg['pore.temperature']].  Numbers are
    real numbers here: the rounding of numpy's float64 arithmetic is
    not modelled, and a value below is the exact value of the formula
    that the notebook evaluates. *)
Record inputs := {
  coords : list (R * R * R);
  internal : list nat;
  temperature : list R
}.

(** [divs = [10, 50]] *)
Definition divs : nat * nat := (10, 50)%nat.

(** [a[idx]] for an array of indices: an index out of range is an
    IndexError. *)
Definition pick {A} (a : list A) (idx : list nat) : option (list A) :=
  mapM (fun p => a !! p) idx.

Fixpoint rows {A} (r c : nat) (a : list A) : list (list A) :=
  match r with
  | O => []
  | S r' => take c a :: rows r' c (drop c a)
  end.

(** [np.reshape(a, shape)], row by row: a ValueError unless the sizes
    agree. *)
Definition reshape {A} (shape : nat * nat) (a : list A)
    : option (list (list A)) :=
  if decide (length a = (shape.1 * shape.2)%nat)
  then Some (rows shape.1 shape.2 a) else None.

(** [30*np.sinh(np.pi*X/5)/np.sinh(np.pi/5)*np.sin(np.pi*Y/5) + 50],
    as a formula over the real numbers; the number numpy computes is
    this value up to rounding. *)
Definition analytical (x y : R) : R :=
  30 * sinh (PI * x / 5) / sinh (PI / 5) * sin (PI * y / 5) + 50.

Definition X (i : inputs) : list R := map (fun c => c.1.1) (coords i).
Definition Y (i : inputs) : list R := map (fun c => c.1.2) (coords i).

Definition soln (i : inputs) : option (list (list R)) :=
  s ← pick (zip_with analytical (X i) (Y i)) (internal i);
  reshape divs s.

Definition temp_map (i : inputs) : option (list (list R)) :=
  sim ← pick (temperature i) (internal i);
  reshape divs sim.

(** [a - b] for two arrays of the same shape. *)
Definition sub (a b : list (list R)) : list (list R) :=
  zip_with (zip_with Rminus) a b.

(** [diff = soln - temp_map] *)
Definition diff (i : inputs) : option (list (list R)) :=
  a ← soln i; b ← temp_map i; Some (sub a b).

(** [a.min()] and [a.max()]: a ValueError on an empty array. *)
Definition amin (a : list (list R)) : option R :=
  match concat a with
  | [] => None
  | x :: l => Some (foldl Rmin x l)
  end.

Definition amax (a : list (list R)) : option R :=
  match concat a with
  | [] => None
  | x :: l => Some (foldl Rmax x l)
  end.

Definition extremes (a : list (list R)) : option (R * R) :=
  mn ← amin a; mx ← amax a; Some (mn, mx).

(** The two numbers of the last print statement. *)
Definition report (i : inputs) : option (R * R) :=
  d ← diff i; extremes d.

(** The difference as the specification words it: the analytical
    solution subtracted from the simulated temperature map. *)
Definition diff_as_claimed (i : inputs) : option (list (list R)) :=
  a ← soln i; b ← temp_map i; Some (sub b a).

Definition report_as_claimed (i : inputs) : option (R * R) :=
  d ← diff_as_claimed i; extremes d.

(** [f] of the analytical and the simulated temperature at pore [p];
    the error at [p] is the former minus the latter. *)
Definition value_at (f : R -> R -> R) (i : inputs) (p : nat) : option R :=
  c ← coords i !! p; t ← temperature i !! p;
  Some (f (analytical c.1.1 c.1.2) t).

Definition error_at (i : inputs) (p : nat) : option R :=
  value_at Rminus i p.

(** Every internal pore has coordinates and a temperature, and there
    are as many of them as the grid has places. *)
Definition well_sized (i : inputs) : Prop :=
  Forall (fun p => (p < length (coords i))%nat /\
                   (p < length (temperature i))%nat) (internal i) /\
  length (internal i) = (divs.1 * divs.2)%nat.

(** A plate of 500 pores on the line x = 0, where the analytical
    temperature is 50, simulated at 49 degrees everywhere. *)
Definition flat_plate : inputs :=
  {| coords := replicate 500 (0, 0, 0);
     internal := seq 0 500;
     temperature := replicate 500 49 |}.

End Thermal.

(** ** Outcomes of steps and the lines of scripts *)

Module Log.
Import Expr Runner.

Definition skipped_all (steps : list step) : run_log :=
  map (fun s => (s, Skipped)) steps.

Definition uses_action (a : string) (s : step) : bool :=
  match s_uses s with
  | Some u => String.eqb u a
  | None => false
  end.

(** The lines of a script run under [-e] that are started: those up to
    and including the first that fails. *)
Fixpoint started (ok : string -> bool) (lines : list string)
    : list string :=
  match lines with
  | [] => []
  | l :: ls => l :: (if ok l then started ok ls else [])
  end.

End Log.

(** ** Worlds for the examples of the deploy job *)

Module DeployCases.
Import Runner Deploy.

(** A push of the tag v2.0.0 when the release branch is at the
    version 2.0.0; the installation of the build tools fails, every
    other program works. *)
Definition pip_fails : world :=
  {| w_ref := "refs/tags/v2.0.0";
     w_default := "refs/heads/dev";
     w_msg := None;
     w_os := "Linux";
     w_secret := fun _ => "";
     w_hash := fun _ _ => "";
     w_remote_tags := ["v1.9.0"; "v2.0.0"];
     w_vle := version_le;
     w_version := fun _ => "2.0.0";
     w_conda := fun _ => ∅;
     w_build := fun _ => ["openpnm-2.0.0.tar.gz"];
     w_ok := fun l =>
       negb (String.eqb l "pip install setuptools wheel twine");
     w_bash := fun _ => no_effect |}.

(** A push of the tag v2.1.0.dev0 when the release branch is at the
    version 2.1.0.dev0; every tool works. *)
Definition dev_version_push : world :=
  {| w_ref := "refs/tags/v2.1.0.dev0";
     w_default := "refs/heads/dev";
     w_msg := None;
     w_os := "Linux";
     w_secret := fun _ => "";
     w_hash := fun _ _ => "";
     w_remote_tags := ["v2.0.0"; "v2.1.0.dev0"];
     w_vle := version_le;
     w_version := fun _ => "2.1.0.dev0";
     w_conda := fun _ => ∅;
     w_build := fun _ => ["openpnm-2.1.0.dev0.tar.gz"];
     w_ok := fun _ => true;
     w_bash := fun _ => no_effect |}.

(** A push of the tag [v1;false] when the newest tag is v2.0.0 and the
    release branch is at the version 2.0.0; every tool works.  Bash
    reads the line [echo refs/tags/v1;false] as two commands, and the
    second one ends with status 1. *)
Definition semicolon_tag_push : world :=
  {| w_ref := "refs/tags/v1;false";
     w_default := "refs/heads/dev";
     w_msg := None;
     w_os := "Linux";
     w_secret := fun _ => "";
     w_hash := fun _ _ => "";
     w_remote_tags := ["v1;false"; "v2.0.0"];
     w_vle := version_le;
     w_version := fun _ => "2.0.0";
     w_conda := fun _ => ∅;
     w_build := fun _ => ["openpnm-2.0.0.tar.gz"];
     w_ok := fun _ => true;
     w_bash := fun line =>
       if String.eqb line "echo refs/tags/v1;false"
       then {| e_lines := []; e_env := []; e_tree := fun t => t;
               e_dist := fun d => d; e_ok := false |}
       else no_effect |}.

(** A push of a tag whose name ends a command and starts another one:
    bash splits the second command at the expansions of [IFS] and starts
    [git push --delete origin v2.0.0], which works, with the
    credentials that the checkout left in the clone. *)
Definition deleting_tag : string :=
  "v1;git${IFS}push${IFS}--delete${IFS}origin${IFS}v2.0.0".

Definition deleting_tag_push : world :=
  {| w_ref := "refs/tags/" +:+ deleting_tag;
     w_default := "refs/heads/dev";
     w_msg := None;
     w_os := "Linux";
     w_secret := fun _ => "";
     w_hash := fun _ _ => "";
     w_remote_tags := [deleting_tag; "v2.0.0"];
     w_vle := version_le;
     w_version := fun _ => "2.0.0";
     w_conda := fun _ => ∅;
     w_build := fun _ => ["openpnm-2.0.0.tar.gz"];
     w_ok := fun _ => true;
     w_bash := fun line =>
       if String.eqb line ("echo refs/tags/" +:+ deleting_tag)
       then {| e_lines := ["git push --delete origin v2.0.0"];
               e_env := []; e_tree := fun t => t;
               e_dist := fun d => d; e_ok := true |}
       else no_effect |}.

End DeployCases.

(** ** Parts and worlds for the examples of the Examples job *)

Module ExamplesCases.
Import Runner Examples.

(** The steps of the build job that are actions, and those up to the
    cache step. *)
Definition actions : list step :=
  [checkout; setup_python; cache_conda; setup_conda].

Definition cache_steps : list step :=
  [checkout; setup_python; cache_conda].

(** A push after which [pip install -e .] fails, every other program
    works. *)
Definition pip_e_fails : world :=
  {| w_ref := "refs/heads/dev";
     w_default := "refs/heads/dev";
     w_msg := Some "Break setup.py";
     w_os := "Linux";
     w_secret := fun _ => "";
     w_hash := fun _ _ => "3f2a";
     w_remote_tags := [];
     w_vle := fun _ _ => true;
     w_version := fun _ => "2.4.0";
     w_conda := fun _ => ∅;
     w_build := fun _ => [];
     w_ok := fun l => negb (String.eqb l "pip install -e .");
     w_bash := fun _ => no_effect |}.

(** A push after which the tests fail, every other program works. *)
Definition tests_fail : world :=
  {| w_ref := "refs/heads/dev";
     w_default := "refs/heads/dev";
     w_msg := Some "Break a notebook";
     w_os := "Linux";
     w_secret := fun _ => "";
     w_hash := fun _ _ => "3f2a";
     w_remote_tags := [];
     w_vle := fun _ _ => true;
     w_version := fun _ => "2.4.0";
     w_conda := fun _ => ∅;
     w_build := fun _ => [];
     w_ok := fun l => negb (String.eqb l pytest_line);
     w_bash := fun _ => no_effect |}.

End ExamplesCases.

(** ** Which pushes start a workflow *)

Module Trigger.
Import Runner.

(** A filter pattern, read from the left: [**] matches any characters,
    [*] any characters but the slash, another character matches itself.
    The characters [?], [+], [[], []] and [!] have a meaning of their
    own in a filter; a pattern that has one is not read. *)
Inductive token := Star | DoubleStar | Chr (c : ascii).

Definition special (c : ascii) : bool :=
  existsb (Ascii.eqb c) ["?"; "+"; "["; "]"; "!"]%char.

Fixpoint tokens (p : string) : option (list token) :=
  match p with
  | EmptyString => Some []
  | String "*" (String "*" r) => cons DoubleStar <$> tokens r
  | String "*" r => cons Star <$> tokens r
  | String c r => if special c then None else cons (Chr c) <$> tokens r
  end.

Fixpoint matches (p : list token) : string -> bool :=
  match p with
  | [] => fun s => match s with EmptyString => true | _ => false end
  | Chr c :: p' =>
      fun s =>
        match s with
        | String a s' => Ascii.eqb a c && matches p' s'
        | EmptyString => false
        end
  | Star :: p' =>
      fix star (s : string) : bool :=
        matches p' s ||
        match s with
        | String a s' => negb (Ascii.eqb a "/") && star s'
        | EmptyString => false
        end
  | DoubleStar :: p' =>
      fix star (s : string) : bool :=
        matches p' s ||
        match s with
        | String _ s' => star s'
        | EmptyString => false
        end
  end.

Definition glob (p name : string) : option bool :=
  (fun ts => matches ts name) <$> tokens p.

(** The name of the tag that a ref stands for, if it is one. *)
Definition tag_of (ref : string) : option string :=
  if Str.has_prefix "refs/tags/" ref
  then Some (String.substring 10 (String.length ref - 10) ref)
  else None.

(** Does a push of [ref] start the workflow?  Without a filter every
    push does; with [on.push.tags] alone, the push of a tag whose name
    matches one of the patterns. *)
Definition triggered (wf : workflow) (ref : string) : option bool :=
  match wf_on_push_tags wf with
  | None => Some true
  | Some pats =>
      match tag_of ref with
      | None => Some false
      | Some name =>
          foldr (fun p acc => b ← glob p name; c ← acc; Some (b || c))
                (Some false) pats
      end
  end.

End Trigger.

(** ** The print precision along a notebook *)

Module Printing.
Import Notebook.

(** The precision in force after the statements [ss], from [p]. *)
Fixpoint prec_after (p : nat) (ss : list stmt) : nat :=
  match ss with
  | [] => p
  | PrecisionCall q :: ss' => prec_after q ss'
  | _ :: ss' => prec_after p ss'
  end.

(** Is [q] the precision in force at every print of [ss], from [p]? *)
Fixpoint prints_at (q p : nat) (ss : list stmt) : bool :=
  match ss with
  | [] => true
  | PrecisionCall p' :: ss' => prints_at q p' ss'
  | PrintCall _ :: ss' => Nat.eqb p q && prints_at q p ss'
  | _ :: ss' => prints_at q p ss'
  end.

Fixpoint cells_print_at (q p : nat) (cs : list cell) : bool :=
  match cs with
  | [] => true
  | c :: cs' =>
      prints_at q p (body c) &&
      cells_print_at q (prec_after p (body c)) cs'
  end.

End Printing.

(** ** The plate of the thermal conduction notebook *)

Module Plate.
Import Thermal.
Local Open Scope R_scope.

(** [Lc = 0.1] *)
Definition Lc : R := 1 / 10.

(** The extent of the network: [divs] pores of spacing [Lc] each way. *)
Definition width : R := INR divs.1 * Lc.
Definition height : R := INR divs.2 * Lc.

(** [alg.set_value_BC(values=50, pores=outlets)]: the outlets are held
    at 50 degrees. *)
Definition T_out : R := 50.

(** The entry of a two-dimensional array at row [r] and column [c]. *)
Definition entry {A} (m : list (list A)) (r c : nat) : option A :=
  row ← m !! r; row !! c.

End Plate.

(** * Properties *)

(** ** Strings *)

Section StringFacts.
Import Str.

Lemma has_prefix_iff (p s : string) :
  has_prefix p s = true <-> exists t, s = p +:+ t.
Proof.
  revert s. induction p as [|a p IH]; intros s; simpl.
  - split; [intros _; by exists s | done].
  - destruct s as [|b s].
    + split; [done | intros [t Ht]; discriminate].
    + destruct (Ascii.eqb a b) eqn:E.
      * apply Ascii.eqb_eq in E as ->. rewrite IH.
        split; intros [t Ht]; exists t; [by rewrite Ht | by injection Ht].
      * split; [done | intros [t Ht]]. injection Ht as -> _.
        by rewrite Ascii.eqb_refl in E.
Qed.

Lemma has_substring_iff (i s : string) :
  has_substring i s = true <-> exists a b, s = a +:+ (i +:+ b).
Proof.
  induction s as [|c s IH]; simpl.
  - rewrite orb_false_r, has_prefix_iff. split.
    + intros [t Ht]. by exists "", t.
    + intros [a [b Hab]]. destruct a; [by exists b | discriminate].
  - rewrite orb_true_iff, has_prefix_iff, IH. split.
    + intros [[t Ht] | [a [b Hab]]].
      * by exists "", t.
      * exists (String c a), b. simpl. by rewrite Hab.
    + intros [a [b Hab]]. destruct a as [|c' a]; simpl in Hab.
      * left. by exists b.
      * right. injection Hab as _ ->. by exists a, b.
Qed.

Lemma remove_char_chars (c : ascii) (s : string) :
  list_ascii_of_string (remove_char c s) =
  List.filter (fun a => negb (Ascii.eqb a c)) (list_ascii_of_string s).
Proof.
  induction s as [|a s IH]; simpl; [done |].
  destruct (Ascii.eqb a c); simpl; by rewrite IH.
Qed.

End StringFacts.

(** ** The runner *)

Section RunnerFacts.
Import Expr Runner.

Lemma run_step_eq e w combo st ok log s :
  run_step e w combo (st, ok, log) s =
    if ok && default true (eval (step_ctx w combo s st) <$> s_if s) then
      let '(st1, r) := step_body e w (step_ctx w combo s st) s st in
      (commit_env st1, r, log ++ [(s, if r then Success else Failure)])
    else (st, ok, log ++ [(s, Skipped)]).
Proof. reflexivity. Qed.

Lemma run_steps_log_acc e w combo steps :
  forall acc,
    map fst (foldl (run_step e w combo) acc steps).2 =
    map fst acc.2 ++ steps.
Proof.
  induction steps as [|s steps IH]; intros [[st ok] log]; cbn [foldl].
  - simpl. by rewrite app_nil_r.
  - rewrite IH, run_step_eq.
    destruct (ok && _).
    + destruct (step_body _ _ _ _ _) as [st1 r]. simpl.
      by rewrite map_app, <- app_assoc.
    + simpl. by rewrite map_app, <- app_assoc.
Qed.

(** The log of a job that is not skipped lists its steps, in order. *)
Lemma run_job_log_steps w j combo s :
  job_enabled w j = true ->
  map fst (r_log (run_job w j combo s)) = j_steps j.
Proof.
  intros Hen. unfold run_job. rewrite Hen. unfold run_steps.
  pose proof (run_steps_log_acc (errexit_of (j_shell j)) w combo
                (j_steps j) (fresh s, true, [])) as H.
  destruct (foldl _ _ _) as [[st ok] log]. simpl in *. done.
Qed.

Lemma executed_in_log (r : result) (x : step) :
  In x (executed r) -> In x (map fst (r_log r)).
Proof.
  unfold executed. rewrite !in_map_iff.
  intros [so [Hx Hin]]. apply filter_In in Hin as [Hin _]. eauto.
Qed.

Lemma executed_in_steps w j combo s (x : step) :
  In x (executed (run_job w j combo s)) -> In x (j_steps j).
Proof.
  intros Hx. destruct (job_enabled w j) eqn:Hen.
  - rewrite <- (run_job_log_steps w j combo s Hen).
    by apply executed_in_log.
  - unfold run_job in Hx. rewrite Hen in Hx. contradiction.
Qed.

Lemma run_job_skipped w j combo s :
  r_conclusion (run_job w j combo s) = Skipped <-> job_enabled w j = false.
Proof.
  unfold run_job. destruct (job_enabled w j).
  - destruct (run_steps _ _ _ _ _) as [[st ok] log]. simpl.
    by destruct ok.
  - done.
Qed.

End RunnerFacts.

(** ** Skipping and the shared state, for any job *)

Section FrameFacts.
Import Expr Runner Log.

Lemma skip_after_failure e w combo steps :
  forall st log,
    foldl (run_step e w combo) (st, false, log) steps
    = (st, false, log ++ skipped_all steps).
Proof.
  induction steps as [|s steps IH]; intros st log; cbn [foldl].
  - unfold skipped_all. simpl. by rewrite app_nil_r.
  - rewrite run_step_eq. cbn [andb]. rewrite IH.
    unfold skipped_all. simpl. by rewrite <- app_assoc.
Qed.

(** *** What scripts and actions leave alone *)

Lemma started_programs_frame ps st :
  sh (started_programs ps st) = sh st /\
  save_key (started_programs ps st) = save_key st /\
  pkgs_dir (started_programs ps st) = pkgs_dir st.
Proof. by destruct ps. Qed.

Lemma exec_cmd_frame w c k :
  forall st,
    sh (exec_cmd w c k st).1 = sh st /\
    save_key (exec_cmd w c k st).1 = save_key st /\
    pkgs_dir st ⊆ pkgs_dir (exec_cmd w c k st).1.
Proof.
  induction k as [line|wd|x wd|a b thn IHt els IHe]; intros st;
    cbn [exec_cmd].
  - destruct (w_ok w line); [| done]. unfold ext_sem.
    repeat case_match; cbn; repeat split; try done. set_solver.
  - destruct (literal c wd); [| done]. cbn [fst].
    by destruct (started_programs_frame (programs wd) st) as (-> & -> & ->).
  - destruct (literal c wd); [| done]. cbn [fst].
    by destruct (started_programs_frame (programs wd)
                   (set_pending (pending st ++ [(x, expand w c st wd)]) st))
      as (-> & -> & ->).
  - destruct (literal c a && literal c b); [| done]. cbv zeta.
    destruct (started_programs_frame (programs a ++ programs b) st)
      as (E1 & E2 & E3).
    rewrite <- E1, <- E2, <- E3. case_match; [apply IHt | apply IHe].
Qed.

Lemma exec_script_frame e w c ks :
  forall st b,
    sh (exec_script e w c ks st b).1 = sh st /\
    save_key (exec_script e w c ks st b).1 = save_key st /\
    pkgs_dir st ⊆ pkgs_dir (exec_script e w c ks st b).1.
Proof.
  induction ks as [|k ks IH]; intros st b; cbn [exec_script]; [done |].
  destruct (exec_cmd_frame w c k st) as (H1 & H2 & H3).
  destruct (exec_cmd w c k st) as [st1 ok]. cbn [fst] in *.
  destruct (e && negb ok).
  - done.
  - destruct (IH st1 ok) as (I1 & I2 & I3).
    rewrite I1, I2. split; [done |]. split; [done |]. by etrans.
Qed.

Lemma upload_grows skip files :
  forall idx, idx ⊆ (upload skip files idx).1.
Proof.
  induction files as [|f fs IH]; intros idx; cbn [upload]; [done |].
  destruct (decide (f ∈ idx)).
  - destruct skip; [apply IH | done].
  - etrans; [| apply IH]. set_solver.
Qed.

Lemma action_sem_frame u w inputs st :
  let st' := (action_sem u w inputs st).1 in
  cache (sh st') = cache (sh st) /\
  index (sh st) ⊆ index (sh st') /\
  (String.eqb u "pypa/gh-action-pypi-publish@master" = false ->
   index (sh st') = index (sh st)) /\
  (String.eqb u "actions/cache@v1" = false ->
   save_key st' = save_key st /\ pkgs_dir st' = pkgs_dir st) /\
  (save_key st' = save_key st \/
   exists k, save_key st' = Some k /\ cache (sh st) !! k = None).
Proof.
  unfold action_sem.
  destruct (String.eqb u "actions/checkout@v2") eqn:E1;
    [cbn; repeat split; auto |].
  destruct (String.eqb u "actions/cache@v1") eqn:E2.
  - repeat case_match; cbn; repeat split; auto; try done.
    right. eauto.
  - destruct (String.eqb u "pypa/gh-action-pypi-publish@master") eqn:E3;
      [| cbn; repeat split; auto].
    pose proof (upload_grows
      (bool_decide (assoc "skip_existing" inputs = Some "true"))
      (dist st) (index (sh st))) as Hg.
    destruct (upload _ _ _) as [idx ok]. cbn in *.
    repeat split; auto; done.
Qed.

Lemma step_body_frame e w c s st :
  let st' := (step_body e w c s st).1 in
  cache (sh st') = cache (sh st) /\
  index (sh st) ⊆ index (sh st') /\
  (uses_action "pypa/gh-action-pypi-publish@master" s = false ->
   index (sh st') = index (sh st)) /\
  (uses_action "actions/cache@v1" s = false ->
   save_key st' = save_key st /\ pkgs_dir st ⊆ pkgs_dir st') /\
  (save_key st' = save_key st \/
   exists k, save_key st' = Some k /\ cache (sh st) !! k = None).
Proof.
  unfold step_body, uses_action. destruct (s_uses s) as [u|].
  - destruct (w_ok w u); [| cbn; repeat split; auto].
    destruct (action_sem_frame u w
      (map (fun kv => (kv.1, eval_template c kv.2)) (s_with s)) st)
      as (H1 & H2 & H3 & H4 & H5).
    split; [exact H1 |]. split; [exact H2 |]. split; [exact H3 |].
    split; [| exact H5].
    intros E. destruct (H4 E) as [-> ->]. done.
  - destruct (exec_script_frame e w c (s_run s) st true) as (H1 & H2 & H3).
    rewrite H1, H2. repeat split; auto.
Qed.

(** The state of a job, step by step: the cache is only read, the index
    only grows, and a key is kept for saving only after a miss. *)
Lemma run_steps_frame e w combo steps :
  forall st ok log,
    let st' := (foldl (run_step e w combo) (st, ok, log) steps).1.1 in
    cache (sh st') = cache (sh st) /\
    index (sh st) ⊆ index (sh st') /\
    (forallb (fun s => negb
       (uses_action "pypa/gh-action-pypi-publish@master" s)) steps = true ->
     index (sh st') = index (sh st)) /\
    (forallb (fun s => negb (uses_action "actions/cache@v1" s)) steps
     = true -> save_key st' = save_key st /\ pkgs_dir st ⊆ pkgs_dir st') /\
    (save_key st' = save_key st \/
     exists k, save_key st' = Some k /\ cache (sh st) !! k = None).
Proof.
  induction steps as [|s steps IH]; intros st ok log; cbv zeta;
    cbn [foldl].
  - cbn. repeat split; auto.
  - rewrite run_step_eq. cbn [forallb].
    destruct (ok && default true _).
    + destruct (step_body_frame e w (step_ctx w combo s st) s st)
        as (H1 & H2 & H3 & H4 & H5).
      destruct (step_body _ _ _ _ _) as [st1 r]. cbn [fst] in *.
      specialize (IH (commit_env st1) r
        (log ++ [(s, if r then Success else Failure)])).
      cbv zeta in IH. destruct IH as (I1 & I2 & I3 & I4 & I5).
      change (sh (commit_env st1)) with (sh st1) in *.
      change (save_key (commit_env st1)) with (save_key st1) in *.
      change (pkgs_dir (commit_env st1)) with (pkgs_dir st1) in *.
      split; [| split; [| split; [| split]]].
      * etrans; [exact I1 | exact H1].
      * etrans; [exact H2 | exact I2].
      * intros [Ha Hb]%andb_true_iff. apply negb_true_iff in Ha.
        etrans; [exact (I3 Hb) | exact (H3 Ha)].
      * intros [Ha Hb]%andb_true_iff. apply negb_true_iff in Ha.
        destruct (I4 Hb) as [J1 J2]. destruct (H4 Ha) as [K1 K2].
        split; [etrans; [exact J1 | exact K1] | by etrans].
      * destruct I5 as [I5 | (k & I5 & I6)].
        -- destruct H5 as [H5 | (k & H5 & H6)].
           ++ left. etrans; [exact I5 | exact H5].
           ++ right. exists k. split; [etrans; [exact I5 | exact H5] | done].
        -- right. exists k. split; [exact I5 |]. etrans; [| exact I6].
           f_equal. symmetry. exact H1.
    + specialize (IH st ok (log ++ [(s, Skipped)])). cbv zeta in IH.
      destruct IH as (I1 & I2 & I3 & I4 & I5).
      split; [| split; [| split; [| split]]]; auto.
      * intros [_ Hb]%andb_true_iff. auto.
      * intros [_ Hb]%andb_true_iff. auto.
Qed.

Lemma post_cache_frame ok st :
  index (sh (post_cache ok st)) = index (sh st) /\
  (ok = false \/ save_key st = None ->
   cache (sh (post_cache ok st)) = cache (sh st)) /\
  (forall k d, cache (sh st) !! k = Some d ->
               cache (sh (post_cache ok st)) !! k = Some d).
Proof.
  unfold post_cache. destruct (save_key st) as [key|]; [| by auto].
  destruct ok; [| by auto].
  destruct (cache (sh st) !! key) eqn:E; [by auto |].
  cbn. split; [done |]. split; [intros [? | ?]; done |].
  intros k d Hk. rewrite lookup_insert_ne; [done |]. congruence.
Qed.

(** What a run of any job does to the cache and to the package
    index. *)
Lemma run_job_frame w j combo s :
  let r := run_job w j combo s in
  index s ⊆ index (sh (r_final r)) /\
  (forall k d, cache s !! k = Some d ->
               cache (sh (r_final r)) !! k = Some d) /\
  (r_conclusion r <> Success -> cache (sh (r_final r)) = cache s) /\
  (forallb (fun s => negb
     (uses_action "pypa/gh-action-pypi-publish@master" s)) (j_steps j)
   = true -> index (sh (r_final r)) = index s) /\
  (forallb (fun s => negb (uses_action "actions/cache@v1" s)) (j_steps j)
   = true -> cache (sh (r_final r)) = cache s).
Proof.
  cbv zeta. unfold run_job. destruct (job_enabled w j).
  - unfold run_steps.
    pose proof (run_steps_frame (errexit_of (j_shell j)) w combo
                  (j_steps j) (fresh s) true []) as H.
    cbv zeta in H. destruct (foldl _ _ _) as [[st ok] log].
    cbn [fst snd] in H. destruct H as (H1 & H2 & H3 & H4 & H5).
    change (sh (fresh s)) with s in *.
    change (save_key (fresh s)) with (@None (string * string)) in *.
    cbn [r_final r_conclusion].
    destruct (post_cache_frame ok st) as (P1 & P2 & P3).
    split; [by rewrite P1 |].
    split; [intros k d Hk; apply P3; by rewrite H1 |].
    split; [intros Hc; rewrite P2, H1; [done | left; by destruct ok] |].
    split; [intros Hp; by rewrite P1, H3 |].
    intros Hc. rewrite P2, H1; [done | right; by apply H4].
  - cbn. by auto.
Qed.

Lemma post_cache_trace ok st : trace (post_cache ok st) = trace st.
Proof. unfold post_cache. by repeat case_match. Qed.


(** *** Scripts do not read the shared state *)




End FrameFacts.

Section ScriptFacts.
Import Expr Runner Log.

Lemma last_cons_default {A} (l : list A) :
  forall a d d', List.last (a :: l) d = List.last (a :: l) d'.
Proof.
  induction l as [|x l IH]; intros a d d'; [done |].
  change (List.last (x :: l) d = List.last (x :: l) d'). apply IH.
Qed.

(** Without [-e] every line of a script of external programs is run, and
    the status of the script is that of its last line. *)
Lemma no_errexit_script w c lines :
  forall st b,
    let r := exec_script false w c (map Ext lines) st b in
    trace r.1 = trace st ++ lines /\
    r.2 = List.last (map (w_ok w) lines) b.
Proof.
  induction lines as [|l lines IH]; intros st b; cbv zeta.
  - cbn. by rewrite app_nil_r.
  - cbn [map exec_script]. cbn [exec_cmd].
    assert (Ht : forall st', trace (ext_sem w l st') = trace st').
    { intros st'. unfold ext_sem. by repeat case_match. }
    destruct (w_ok w l) eqn:El; cbn [andb].
    + destruct (IH (ext_sem w l (set_trace (trace st ++ [l]) st)) true)
        as [I1 I2].
      rewrite I1, I2, Ht. cbn [trace set_trace]. rewrite <- app_assoc.
      split; [done |]. destruct lines as [|x lines]; [done |].
      change (List.last (map (w_ok w) (x :: lines)) true
              = List.last (map (w_ok w) (x :: lines)) b).
      apply last_cons_default.
    + destruct (IH (set_trace (trace st ++ [l]) st) false) as [I1 I2].
      rewrite I1, I2. cbn [trace set_trace]. rewrite <- app_assoc.
      split; [done |]. destruct lines as [|x lines]; [done |].
      change (List.last (map (w_ok w) (x :: lines)) false
              = List.last (map (w_ok w) (x :: lines)) b).
      apply last_cons_default.
Qed.

End ScriptFacts.

(** ** Sorting the tags *)

Section SortFacts.
Import Runner.
Context (le : string -> string -> bool).
Hypothesis le_total : forall a b, le a b = true \/ le b a = true.
Hypothesis le_trans :
  forall a b c, le a b = true -> le b c = true -> le a c = true.

Lemma in_insert_by (x y : string) (l : list string) :
  In y (insert_by le x l) <-> y = x \/ In y l.
Proof.
  induction l as [|z l IH]; simpl; [intuition |].
  destruct (le x z); simpl; rewrite ?IH; intuition.
Qed.

Lemma in_sort_V (y : string) (l : list string) :
  In y (sort_V le l) <-> In y l.
Proof.
  induction l as [|x l IH]; simpl; [done |].
  change (foldr (insert_by le) [] l) with (sort_V le l).
  rewrite in_insert_by, IH. intuition.
Qed.

Lemma ascending_insert_by (x : string) (l : list string) :
  ascending le l -> ascending le (insert_by le x l).
Proof.
  induction l as [|z l IH]; intros Hl.
  - intros i j a b Hij Hi Hj. destruct i, j; simpl in *; try lia;
      destruct j; discriminate.
  - assert (Hl' : ascending le l).
    { intros i j a b Hij Hi Hj. apply (Hl (S i) (S j)); simpl; auto. lia. }
    assert (Hz : forall b, In b l -> le z b = true).
    { intros b Hb. apply list_elem_of_In, list_elem_of_lookup in Hb as [j Hj].
      apply (Hl 0%nat (S j)); simpl; auto. lia. }
    simpl. destruct (le x z) eqn:Hxz.
    + intros i j a b Hij Hi Hj. destruct i as [|i].
      * simpl in Hi. injection Hi as <-. destruct j as [|j]; [lia |].
        simpl in Hj. destruct j as [|j]; simpl in Hj.
        -- by injection Hj as <-.
        -- apply (le_trans _ z); [done |]. apply Hz.
           apply list_elem_of_In, list_elem_of_lookup. eauto.
      * destruct j as [|j]; [lia |]. simpl in Hi, Hj.
        apply (Hl i j); auto. lia.
    + assert (Hzx : le z x = true).
      { destruct (le_total x z); congruence. }
      intros i j a b Hij Hi Hj. destruct i as [|i].
      * simpl in Hi. injection Hi as <-. destruct j as [|j]; [lia |].
        simpl in Hj.
        assert (Hb : In b (insert_by le x l)).
        { apply list_elem_of_In, list_elem_of_lookup. eauto. }
        apply in_insert_by in Hb as [-> | Hb]; auto.
      * destruct j as [|j]; [lia |]. simpl in Hi, Hj.
        apply (IH Hl' i j); auto. lia.
Qed.

Lemma ascending_sort_V (l : list string) : ascending le (sort_V le l).
Proof.
  induction l as [|x l IH]; simpl.
  - intros i j a b _ Hi. destruct i; discriminate.
  - by apply ascending_insert_by.
Qed.

Lemma last_lookup_string (l : list string) :
  l <> [] -> l !! (length l - 1)%nat = Some (List.last l "").
Proof.
  induction l as [|x l IH]; [done |]. intros _.
  destruct l as [|y l]; [done |].
  change (List.last (x :: y :: l) "") with (List.last (y :: l) "").
  rewrite <- IH by done. simpl. by rewrite Nat.sub_0_r.
Qed.

(** [sort -V | tail -1] gives a greatest element of the list. *)
Lemma tail_1_sort_V_greatest (l : list string) :
  l <> [] ->
  In (tail_1 (sort_V le l)) l /\
  forall t, In t l -> le t (tail_1 (sort_V le l)) = true.
Proof.
  intros Hne.
  assert (Hne' : sort_V le l <> []).
  { destruct l as [|x l]; [done |]. intros Hs.
    assert (In x (sort_V le (x :: l))) as Hx
      by (apply in_sort_V; simpl; auto).
    rewrite Hs in Hx. contradiction. }
  pose proof (last_lookup_string _ Hne') as Hlast.
  unfold tail_1. split.
  - apply in_sort_V, list_elem_of_In, list_elem_of_lookup. eauto.
  - intros t Ht. apply in_sort_V in Ht.
    apply list_elem_of_In, list_elem_of_lookup in Ht as [i Hi].
    pose proof (lookup_lt_Some _ _ _ Hi) as Hlt.
    destruct (decide (i = length (sort_V le l) - 1)%nat) as [-> | Hne2].
    + rewrite Hlast in Hi. injection Hi as <-.
      destruct (le_total (List.last (sort_V le l) "")
                  (List.last (sort_V le l) "")); done.
    + apply (ascending_sort_V l i (length (sort_V le l) - 1)); auto. lia.
Qed.

End SortFacts.

Section VersionOrderFacts.
Import Deploy.

Lemma lex_le_total (a : list N) :
  forall b, lex_le a b = true \/ lex_le b a = true.
Proof.
  induction a as [|x a IH]; intros [|y b]; simpl; auto.
  destruct (N.ltb_spec x y), (N.ltb_spec y x); auto; lia.
Qed.

Lemma lex_le_trans (a : list N) :
  forall b c, lex_le a b = true -> lex_le b c = true -> lex_le a c = true.
Proof.
  induction a as [|x a IH]; intros [|y b] [|z c]; simpl; try done.
  destruct (N.ltb_spec x y), (N.ltb_spec y x), (N.ltb_spec y z),
           (N.ltb_spec z y), (N.ltb_spec x z), (N.ltb_spec z x);
    try done; try lia.
  apply IH.
Qed.

Lemma version_le_total (a b : string) :
  version_le a b = true \/ version_le b a = true.
Proof. apply lex_le_total. Qed.

Lemma version_le_trans (a b c : string) :
  version_le a b = true -> version_le b c = true -> version_le a c = true.
Proof. apply lex_le_trans. Qed.

End VersionOrderFacts.

(** ** The deploy job *)

Section DeployFacts.
Import Expr Runner Log Deploy.

(* One step of symbolic execution; the state is kept as an explicit
   record. *)
Ltac crunch :=
  cbn -[run_step tail_1 sort_V startsWith contains upload lookup union
        Str.shell_plain python_print_version];
  cbv [commit_env set_pending set_env set_tags set_tree set_trace
       set_dist set_sh set_pkgs_dir set_save_key fresh post_cache
       started_programs bash_line apply_effect];
  cbn -[run_step tail_1 sort_V startsWith contains upload lookup union
        Str.shell_plain python_print_version].
Ltac step := rewrite run_step_eq; crunch.

Lemma env_after_set_env (T V : string) :
  let e : gmap string string := ∅ ∪ <["VER" := V]> (<["TAG" := T]> ∅) in
  e !! "TAG" = Some T /\ e !! "VER" = Some V.
Proof. intros e. unfold e. split; by simplify_map_eq. Qed.

Lemma env_after_mismatch (T V M : string) :
  let e : gmap string string :=
    <["TAG_MISMATCH" := M]> (<["VER" := V]> (<["TAG" := T]> ∅)) in
  e !! "TAG" = Some T /\ e !! "VER" = Some V /\
  e !! "TAG_MISMATCH" = Some M /\ (∅ ∪ e) !! "TAG_MISMATCH" = Some M.
Proof. intros e. unfold e. repeat split; by simplify_map_eq. Qed.

(** The four steps that set the variables of the gate have no pasted
    text: whatever the ref, [TAG] is the newest tag, [VER] the version of
    the release branch and [TAG_MISMATCH] the outcome of their
    comparison. *)
Lemma gate_steps_env w s :
  tools_ok w gate_steps = true ->
  exists st log,
    run_steps true w [] gate_steps (fresh s) = (st, true, log)
    /\ env st !! "TAG" = Some (newest_tag w)
    /\ env st !! "VER" = Some (w_version w "release")
    /\ env st !! "TAG_MISMATCH"
       = Some (if tag_matches w then "false" else "true").
Proof.
  intros Hok. cbn in Hok. rewrite !andb_true_iff in Hok.
  destruct Hok as (H1 & H2 & H3 & _).
  unfold tag_matches, newest_tag.
  destruct (env_after_set_env (tail_1 (sort_V (w_vle w) (w_remote_tags w)))
              (w_version w "release")) as [A B].
  unfold run_steps. crunch.
  step. rewrite H1. crunch.
  step. rewrite H2. crunch.
  step. rewrite H3. crunch.
  step. rewrite A, B. cbn [default from_option Datatypes.id].
  destruct (String.eqb _ _) eqn:E; crunch.
  - destruct (env_after_mismatch
                (tail_1 (sort_V (w_vle w) (w_remote_tags w)))
                (w_version w "release") "false") as (ET & EV & EM & _).
    do 2 eexists. split; [reflexivity |]. crunch.
    rewrite ET, EV, EM. repeat split; reflexivity.
  - destruct (env_after_mismatch
                (tail_1 (sort_V (w_vle w) (w_remote_tags w)))
                (w_version w "release") "true") as (ET & EV & EM & _).
    do 2 eexists. split; [reflexivity |]. crunch.
    rewrite ET, EV, EM. repeat split; reflexivity.
Qed.

(** The run of the deploy job when the tools of the steps before the
    publish step work and bash takes the pushed ref literally. *)
Lemma deploy_run_summary w s :
  tools_ok w before_publish = true ->
  Str.shell_plain (w_ref w) = true ->
  let r := run w s in
  let g := startsWith (w_ref w) "refs/tags" && tag_matches w in
  let up := upload true (w_build w "release") (index s) in
  let o := if g
           then if w_ok w "pypa/gh-action-pypi-publish@master" && up.2
                then Success else Failure
           else Skipped in
  r_log r = map (fun x => (x, Success)) before_publish ++ [(publish, o)]
  /\ r_conclusion r = (if o is Failure then Failure else Success)
  /\ env (r_final r) !! "TAG" = Some (newest_tag w)
  /\ env (r_final r) !! "VER" = Some (w_version w "release")
  /\ env (r_final r) !! "TAG_MISMATCH"
     = Some (if tag_matches w then "false" else "true")
  /\ index (sh (r_final r))
     = (if g && w_ok w "pypa/gh-action-pypi-publish@master"
        then up.1 else index s)
  /\ trace (r_final r)
     = ["git fetch --all --tags"; "git tag"; "sort -V"; "tail -1";
        python_print_version; "python -m pip install --upgrade pip";
        "pip install setuptools wheel twine";
        "python setup.py sdist bdist_wheel"]
  /\ dist (r_final r) = w_build w "release".
Proof.
  intros Hok Hplain. cbn in Hok. rewrite !andb_true_iff in Hok.
  destruct Hok as (H1 & H2 & H3 & H4 & H5 & H6 & _).
  unfold tag_matches, newest_tag.
  destruct (env_after_set_env (tail_1 (sort_V (w_vle w) (w_remote_tags w)))
              (w_version w "release")) as [A B].
  destruct (String.eqb _ _) eqn:E.
  - destruct (env_after_mismatch
                (tail_1 (sort_V (w_vle w) (w_remote_tags w)))
                (w_version w "release") "false") as (ET & EV & EM & EM').
    unfold run, run_job, job_enabled, run_steps. crunch.
    step. rewrite H1. crunch.
    step. rewrite H2. crunch.
    step. rewrite H3. crunch.
    step. rewrite A, B. cbn [default from_option Datatypes.id]. rewrite E. crunch.
    step. rewrite H4. crunch. rewrite H5. crunch. rewrite Hplain. crunch.
    step. rewrite H6. crunch.
    step. rewrite EM'. cbn [default from_option Datatypes.id].
    change (contains "false" "false") with true. rewrite ?andb_true_r.
    destruct (startsWith (w_ref w) "refs/tags"); crunch.
    + destruct (w_ok w "pypa/gh-action-pypi-publish@master"); crunch.
      * destruct (upload _ _ _) as [idx ok]. crunch.
        destruct ok; crunch; rewrite ET, EV, EM; repeat split; reflexivity.
      * rewrite ET, EV, EM. repeat split; reflexivity.
    + rewrite ET, EV, EM. repeat split; reflexivity.
  - destruct (env_after_mismatch
                (tail_1 (sort_V (w_vle w) (w_remote_tags w)))
                (w_version w "release") "true") as (ET & EV & EM & EM').
    unfold run, run_job, job_enabled, run_steps. crunch.
    step. rewrite H1. crunch.
    step. rewrite H2. crunch.
    step. rewrite H3. crunch.
    step. rewrite A, B. cbn [default from_option Datatypes.id]. rewrite E. crunch.
    step. rewrite H4. crunch. rewrite H5. crunch. rewrite Hplain. crunch.
    step. rewrite H6. crunch.
    step. rewrite EM'. cbn [default from_option Datatypes.id].
    change (contains "true" "false") with false. rewrite ?andb_false_r.
    crunch. rewrite ET, EV, EM. repeat split; reflexivity.
Qed.

Lemma upload_skip_existing (files : list string) (idx : gset string) :
  upload true files idx = (idx ∪ list_to_set files, true).
Proof.
  revert idx. induction files as [|f fs IH]; intros idx; simpl.
  - f_equal. set_solver.
  - destruct (decide (f ∈ idx)); rewrite IH; f_equal; set_solver.
Qed.

Lemma publish_not_before :
  ~ In publish before_publish.
Proof.
  unfold before_publish. simpl.
  intros [H|[H|[H|[H|[H|[H|[]]]]]]]; discriminate H.
Qed.

Lemma executed_deploy w s (x : step) :
  tools_ok w before_publish = true ->
  Str.shell_plain (w_ref w) = true ->
  In x (executed (run w s)) <->
  In x before_publish \/
  (x = publish /\
   startsWith (w_ref w) "refs/tags" && tag_matches w = true).
Proof.
  intros Hok Hplain.
  destruct (deploy_run_summary w s Hok Hplain) as (Hlog & _).
  unfold executed. rewrite Hlog. cbn -[startsWith tag_matches].
  pose proof publish_not_before as Hnb.
  destruct (startsWith _ _ && _).
  - assert (Hr : forall o, ran (if o : bool then Success else Failure) = true)
      by (by intros []).
    rewrite Hr. cbn. split.
    + intros [<-|[<-|[<-|[<-|[<-|[<-|[<-|[]]]]]]]]; cbn; auto 10.
    + intros [H | [-> _]]; [cbn in H; tauto | cbn; auto 10].
  - cbn. split.
    + intros H. left. exact H.
    + intros [H | [_ H]]; [exact H | discriminate H].
Qed.

Lemma publish_executed_iff w s :
  tools_ok w before_publish = true ->
  Str.shell_plain (w_ref w) = true ->
  In publish (executed (run w s)) <->
  startsWith (w_ref w) "refs/tags" = true /\ tag_matches w = true.
Proof.
  intros Hok Hplain.
  rewrite (executed_deploy w s publish Hok Hplain), andb_true_iff.
  split.
  - intros [H | [_ H]]; [by apply publish_not_before in H | done].
  - intros H. by right.
Qed.

End DeployFacts.

(** ** The deploy job in every world *)

Section DeployEveryWorld.
Import Expr Runner Log Deploy.

Ltac dcrunch :=
  cbn -[run_step tail_1 sort_V startsWith contains upload lookup union
        Str.shell_plain python_print_version];
  cbv [commit_env set_pending set_env set_tags set_tree set_trace
       set_dist set_sh set_pkgs_dir set_save_key fresh post_cache
       started_programs bash_line apply_effect];
  cbn -[run_step tail_1 sort_V startsWith contains upload lookup union
        Str.shell_plain python_print_version].
Ltac dstep := rewrite run_step_eq; dcrunch.
Ltac dfail := repeat dstep; repeat split; reflexivity.

(** The steps before the publish step succeed exactly when their tools
    work and the line with the pasted ref ends with status 0. *)
Lemma deploy_prefix_status w s :
  (foldl (run_step true w []) (fresh s, true, []) before_publish).1.2
  = tools_ok w before_publish &&
    (Str.shell_plain (w_ref w) || e_ok (w_bash w (pasted_line w))).
Proof.
  unfold pasted_line. dcrunch.
  dstep. destruct (w_ok w "actions/checkout@v2") eqn:H1; dcrunch;
    [| dfail].
  dstep. destruct (w_ok w "actions/setup-python@v2") eqn:H2; dcrunch;
    [| dfail].
  dstep. destruct (w_ok w "git fetch --all --tags") eqn:H3; dcrunch;
    [| dfail].
  dstep. destruct (String.eqb _ _) eqn:E; dcrunch.
  - dstep. destruct (w_ok w "python -m pip install --upgrade pip") eqn:H4;
      dcrunch; [| dfail].
    destruct (w_ok w "pip install setuptools wheel twine") eqn:H5;
      dcrunch; [| dfail].
    destruct (Str.shell_plain (w_ref w)) eqn:Hp; dcrunch.
    + dstep. by destruct (w_ok w "python setup.py sdist bdist_wheel").
    + destruct (e_ok (w_bash w ("echo " +:+ w_ref w))) eqn:He; dcrunch.
      * dstep. rewrite ?andb_true_r.
        by destruct (w_ok w "python setup.py sdist bdist_wheel").
      * dstep. by rewrite andb_false_r.
  - dstep. destruct (w_ok w "python -m pip install --upgrade pip") eqn:H4;
      dcrunch; [| dfail].
    destruct (w_ok w "pip install setuptools wheel twine") eqn:H5;
      dcrunch; [| dfail].
    destruct (Str.shell_plain (w_ref w)) eqn:Hp; dcrunch.
    + dstep. by destruct (w_ok w "python setup.py sdist bdist_wheel").
    + destruct (e_ok (w_bash w ("echo " +:+ w_ref w))) eqn:He; dcrunch.
      * dstep. rewrite ?andb_true_r.
        by destruct (w_ok w "python setup.py sdist bdist_wheel").
      * dstep. by rewrite andb_false_r.
Qed.

Lemma deploy_prefix w s :
  exists st log,
    foldl (run_step true w []) (fresh s, true, []) before_publish
    = (st, tools_ok w before_publish &&
           (Str.shell_plain (w_ref w) || e_ok (w_bash w (pasted_line w))),
       log)
    /\ cache (sh st) = cache s /\ index (sh st) = index s
    /\ save_key st = None /\ map fst log = before_publish.
Proof.
  pose proof (deploy_prefix_status w s) as Hok.
  pose proof (run_steps_frame true w [] before_publish (fresh s) true [])
    as Hfr.
  pose proof (run_steps_log_acc true w [] before_publish
                (fresh s, true, [])) as Hlog.
  cbv zeta in Hfr.
  destruct (foldl _ _ _) as [[st ok] log]. cbn [fst snd] in *.
  destruct Hfr as (H1 & _ & H3 & H4 & _).
  exists st, log. rewrite Hok. split; [done |].
  split; [exact H1 |]. split; [by apply H3 |].
  split; [by apply H4 |]. exact Hlog.
Qed.

(** A run of the deploy job, from the state in which the steps before
    the publish step leave the runner. *)
Lemma deploy_run_cases w s :
  exists st ok log,
    ok = tools_ok w before_publish &&
         (Str.shell_plain (w_ref w) || e_ok (w_bash w (pasted_line w)))
    /\ index (sh st) = index s /\ map fst log = before_publish
    /\ run w s
       = (if ok && eval (step_ctx w [] publish st)
                        (And (StartsWith EventRef (Lit "refs/tags"))
                             (Contains (EnvVar "TAG_MISMATCH")
                                       (Lit "false")))
          then
            if w_ok w "pypa/gh-action-pypi-publish@master"
            then {| r_conclusion := Success;
                    r_log := log ++ [(publish, Success)];
                    r_final :=
                      commit_env
                        (set_sh {| cache := cache (sh st);
                                   index := index (sh st)
                                            ∪ list_to_set (dist st) |}
                                st) |}
            else {| r_conclusion := Failure;
                    r_log := log ++ [(publish, Failure)];
                    r_final := commit_env st |}
          else {| r_conclusion := if ok then Success else Failure;
                  r_log := log ++ [(publish, Skipped)];
                  r_final := st |}).
Proof.
  destruct (deploy_prefix w s) as (st & log & E & Hc & Hi & Hk & Hlog).
  exists st. eexists. exists log. split; [reflexivity |].
  split; [exact Hi |]. split; [exact Hlog |].
  unfold run, run_job, run_steps.
  change (job_enabled w deploy) with true. cbv iota.
  change (errexit_of (j_shell deploy)) with true.
  change (j_steps deploy) with (before_publish ++ [publish]).
  rewrite foldl_app, E. cbn [foldl]. rewrite run_step_eq.
  change (s_if publish)
    with (Some (And (StartsWith EventRef (Lit "refs/tags"))
                    (Contains (EnvVar "TAG_MISMATCH") (Lit "false")))).
  cbn [fmap option_fmap option_map default from_option Datatypes.id].
  destruct (_ && eval _ _) eqn:G.
  - unfold step_body. change (s_uses publish)
      with (Some "pypa/gh-action-pypi-publish@master").
    cbv iota. destruct (w_ok w "pypa/gh-action-pypi-publish@master").
    + unfold action_sem. cbn [String.eqb Ascii.eqb Bool.eqb].
      change (bool_decide (assoc "skip_existing" _ = Some "true"))
        with true.
      rewrite upload_skip_existing. unfold post_cache.
      change (save_key (commit_env ?x)) with (save_key x).
      cbn [save_key set_sh]. by rewrite Hk.
    + unfold post_cache.
      change (save_key (commit_env ?x)) with (save_key x). by rewrite Hk.
  - unfold post_cache. by rewrite Hk.
Qed.

Lemma publish_in_executed (log : run_log) (o : outcome) :
  map fst log = before_publish ->
  In publish (map fst (List.filter (fun so => ran so.2)
                         (log ++ [(publish, o)]))) <->
  ran o = true.
Proof.
  intros Hlog. rewrite List.filter_app, map_app, in_app_iff. split.
  - intros [H | H].
    + exfalso. apply publish_not_before. rewrite <- Hlog.
      apply in_map_iff in H as (so & <- & H).
      apply filter_In in H as [H _]. by apply in_map.
    + cbn [List.filter snd] in H. by destruct (ran o).
  - intros H. right. cbn [List.filter snd]. rewrite H. by left.
Qed.

(** What a run of the deploy job does to the package index, in every
    world. *)
Lemma deploy_publish_outcome w s :
  (In publish (executed (run w s)) ->
   w_ok w "pypa/gh-action-pypi-publish@master" = true ->
   In (publish, Success) (r_log (run w s)) /\
   r_conclusion (run w s) = Success /\
   index (sh (r_final (run w s)))
   = index s ∪ list_to_set (dist (r_final (run w s)))) /\
  (~ In publish (executed (run w s)) ->
   index (sh (r_final (run w s))) = index s) /\
  (tools_ok w before_publish = false ->
   r_conclusion (run w s) = Failure /\
   ~ In publish (executed (run w s))).
Proof.
  destruct (deploy_run_cases w s) as (st & ok & log & Eok & Hi & Hlog & ->).
  destruct (ok && eval _ _) eqn:G.
  - destruct (w_ok w "pypa/gh-action-pypi-publish@master") eqn:Ha.
    + split; [| split].
      * intros _ _. cbn [r_log r_conclusion r_final].
        split; [apply in_or_app; right; by left |]. split; [done |].
        cbn. by rewrite Hi.
      * intros Hn. exfalso. apply Hn. unfold executed. cbn [r_log].
        by apply publish_in_executed.
      * intros Hf. rewrite Eok, Hf in G. discriminate G.
    + split; [| split].
      * intros _ Hx. discriminate Hx.
      * intros Hn. exfalso. apply Hn. unfold executed. cbn [r_log].
        by apply publish_in_executed.
      * intros Hf. rewrite Eok, Hf in G. discriminate G.
  - split; [| split].
    + intros Hx. unfold executed in Hx. cbn [r_log] in Hx.
      by apply publish_in_executed in Hx.
    + intros _. exact Hi.
    + intros Hf. rewrite Eok, Hf. cbn [andb r_conclusion].
      split; [done |]. unfold executed. cbn [r_log].
      rewrite publish_in_executed by done. discriminate.
Qed.

Lemma deploy_run_failed w s :
  tools_ok w before_publish = false ->
  let r := run w s in
  r_conclusion r = Failure /\ ~ In publish (executed r) /\
  cache (sh (r_final r)) = cache s /\ index (sh (r_final r)) = index s.
Proof.
  intros Hf. cbv zeta.
  destruct (deploy_publish_outcome w s) as (_ & H2 & H3).
  destruct (H3 Hf) as [Hc Hn].
  destruct (run_job_frame w deploy [] s) as (_ & _ & _ & _ & F5).
  split; [exact Hc |]. split; [exact Hn |].
  split; [exact (F5 eq_refl) | exact (H2 Hn)].
Qed.

(** With a ref that bash takes literally, the publish step is started
    exactly when the tools work and the gate holds. *)
Lemma publish_executed_plain w s :
  Str.shell_plain (w_ref w) = true ->
  In publish (executed (run w s)) <->
  tools_ok w before_publish = true /\
  startsWith (w_ref w) "refs/tags" = true /\ tag_matches w = true.
Proof.
  intros Hp. destruct (tools_ok w before_publish) eqn:Hok.
  - rewrite (publish_executed_iff w s Hok Hp). tauto.
  - destruct (deploy_run_failed w s Hok) as (_ & Hn & _).
    split; [done | intros [? _]; done].
Qed.

End DeployEveryWorld.

(** C1 fails on the code at the push of the tag [v1;false]: the workflow
    is started, the tools work, the ref starts with refs/tags and the tag
    check succeeds, yet the third line of the install step, into which
    the ref is pasted, ends with status 1; under [bash -e] the step
    fails, and neither the build step nor the publish step is started. *)
Theorem deploy_semicolon_tag_fails :
  let w := DeployCases.semicolon_tag_push in
  let r := Deploy.run w Deploy.empty_shared in
  Trigger.triggered Deploy.deploy_to_pypi (Runner.w_ref w) = Some true
  /\ Runner.tools_ok w (Deploy.before_publish ++ [Deploy.publish]) = true
  /\ Expr.startsWith (Runner.w_ref w) "refs/tags" = true
  /\ Deploy.tag_matches w = true
  /\ Deploy.pasted_line w = "echo refs/tags/v1;false"
  /\ Runner.r_log r
     = [(Deploy.checkout, Runner.Success);
        (Deploy.setup_python, Runner.Success);
        (Deploy.set_env_variables, Runner.Success);
        (Deploy.set_tag_mismatch, Runner.Success);
        (Deploy.install_dependencies, Runner.Failure);
        (Deploy.build_distribution, Runner.Skipped);
        (Deploy.publish, Runner.Skipped)]
  /\ Runner.r_conclusion r = Runner.Failure
  /\ ~ In "python setup.py sdist bdist_wheel"
          (Runner.trace (Runner.r_final r)).
Proof.
  cbv zeta. repeat (split; [by vm_compute |]).
  vm_compute. intros H.
  repeat (destruct H as [H | H]; [discriminate H |]). exact H.
Qed.

(** C3 fails on the code at the push of a tag whose name holds a command:
    the workflow is started, and the install step, into whose script the
    ref is pasted, starts [git push --delete origin v2.0.0], a command
    that deletes a tag.  No step of the job is the deletion step that
    the file keeps in comments. *)
Theorem deploy_pasted_ref_deletes_tag :
  let w := DeployCases.deleting_tag_push in
  let r := Deploy.run w Deploy.empty_shared in
  Trigger.triggered Deploy.deploy_to_pypi (Runner.w_ref w) = Some true
  /\ Deploy.pasted_line w = "echo refs/tags/" +:+ DeployCases.deleting_tag
  /\ In Deploy.install_dependencies (Runner.executed r)
  /\ In "git push --delete origin v2.0.0" (Runner.trace (Runner.r_final r))
  /\ Deploy.deletes_tag "git push --delete origin v2.0.0" = true
  /\ ~ In Deploy.delete_tag_step (Runner.j_steps Deploy.deploy)
  /\ existsb Deploy.deletes_tag
       (flat_map Runner.step_programs (Runner.j_steps Deploy.deploy))
     = false.
Proof.
  cbv zeta. split; [by vm_compute |]. split; [by vm_compute |].
  split; [vm_compute; tauto |]. split; [vm_compute; tauto |].
  split; [by vm_compute |]. split; [| by vm_compute].
  cbn. intros H. repeat (destruct H as [H | H]; [discriminate H |]).
  exact H.
Qed.

(** C7. The four steps that set the variables of the gate leave in TAG
    the last tag of the remote in the order of sort -V, in VER the
    version on the release branch and in TAG_MISMATCH the outcome of
    their comparison, whatever ref was pushed; when the tools work and
    bash takes the ref literally the publish step compares these two;
    the last element of the sorted tags is a greatest tag when the order
    is total and transitive; the comparison deletes every v of TAG; and
    when the older of two tags is pushed the publish step runs on the
    strength of the newer one, although neither the pushed tag nor the
    version at the pushed ref matches. *)
Theorem deploy_gate_uses_newest_tag :
  (forall (w : Runner.world) (s : Runner.shared),
      Runner.tools_ok w Deploy.gate_steps = true ->
      exists st log,
        Runner.run_steps true w [] Deploy.gate_steps (Runner.fresh s)
        = (st, true, log)
        /\ Runner.env st !! "TAG"
           = Some (Runner.tail_1 (Runner.sort_V (Runner.w_vle w)
                                    (Runner.w_remote_tags w)))
        /\ Runner.env st !! "VER" = Some (Runner.w_version w "release")
        /\ Runner.env st !! "TAG_MISMATCH"
           = Some (if String.eqb
                        (Str.remove_char "v"
                           (Runner.tail_1
                              (Runner.sort_V (Runner.w_vle w)
                                 (Runner.w_remote_tags w))))
                        (Runner.w_version w "release")
                   then "false" else "true"))
  /\ (forall (w : Runner.world) (s : Runner.shared),
      Runner.tools_ok w Deploy.before_publish = true ->
      Str.shell_plain (Runner.w_ref w) = true ->
      Runner.env (Runner.r_final (Deploy.run w s)) !! "TAG"
        = Some (Runner.tail_1 (Runner.sort_V (Runner.w_vle w)
                                 (Runner.w_remote_tags w)))
      /\ Runner.env (Runner.r_final (Deploy.run w s)) !! "VER"
        = Some (Runner.w_version w "release")
      /\ (In Deploy.publish (Runner.executed (Deploy.run w s)) <->
          Expr.startsWith (Runner.w_ref w) "refs/tags" = true /\
          String.eqb
            (Str.remove_char "v"
               (Runner.tail_1 (Runner.sort_V (Runner.w_vle w)
                                 (Runner.w_remote_tags w))))
            (Runner.w_version w "release") = true))
  /\ (forall (le : string -> string -> bool) (l : list string),
      (forall a b, le a b = true \/ le b a = true) ->
      (forall a b c, le a b = true -> le b c = true -> le a c = true) ->
      l <> [] ->
      In (Runner.tail_1 (Runner.sort_V le l)) l /\
      forall t, In t l -> le t (Runner.tail_1 (Runner.sort_V le l)) = true)
  /\ (forall (c : ascii) (t : string),
      list_ascii_of_string (Str.remove_char c t)
      = List.filter (fun a => negb (Ascii.eqb a c)) (list_ascii_of_string t))
  /\ (forall le : string -> string -> bool,
      le "v1.9.0" "v2.0.0" = true ->
      let w := Deploy.old_tag_push le in
      let r := Deploy.run w Deploy.empty_shared in
      Runner.w_ref w = "refs/tags/v1.9.0"
      /\ In "v1.9.0" (Runner.w_remote_tags w)
      /\ Runner.env (Runner.r_final r) !! "TAG" = Some "v2.0.0"
      /\ Runner.env (Runner.r_final r) !! "VER" = Some "2.0.0"
      /\ Str.remove_char "v" "v1.9.0" <> "2.0.0"
      /\ Runner.w_version w (Runner.w_ref w) <> "2.0.0"
      /\ In Deploy.publish (Runner.executed r)).
Proof.
  split; [| split; [| split; [| split]]].
  - intros w s Hok. exact (gate_steps_env w s Hok).
  - intros w s Hok Hp.
    destruct (deploy_run_summary w s Hok Hp) as (_ & _ & HT & HV & _).
    split; [exact HT |]. split; [exact HV |].
    exact (publish_executed_iff w s Hok Hp).
  - intros le l Htot Htr Hne. by apply tail_1_sort_V_greatest.
  - exact remove_char_chars.
  - intros le Hle w r.
    assert (Hok : Runner.tools_ok w Deploy.before_publish = true)
      by reflexivity.
    assert (Hp : Str.shell_plain (Runner.w_ref w) = true) by reflexivity.
    assert (Hnew : Deploy.newest_tag w = "v2.0.0").
    { unfold Deploy.newest_tag, w. simpl. by rewrite Hle. }
    assert (Hm : Deploy.tag_matches w = true).
    { unfold Deploy.tag_matches. by rewrite Hnew. }
    destruct (deploy_run_summary w Deploy.empty_shared Hok Hp)
      as (_ & _ & HT & HV & _).
    split; [reflexivity |]. split; [simpl; tauto |].
    split; [unfold r; by rewrite HT, Hnew |].
    split; [unfold r; by rewrite HV |].
    split; [discriminate |]. split; [discriminate |].
    apply (publish_executed_iff w Deploy.empty_shared Hok Hp).
    split; [reflexivity | exact Hm].
Qed.

Lemma deploy_gate_uses_newest_tag_witness :
  (Deploy.version_le "v1.9.0" "v2.0.0" = true /\
   In Deploy.publish
      (Runner.executed
         (Deploy.run (Deploy.old_tag_push Deploy.version_le)
                     Deploy.empty_shared))) /\
  In (Runner.tail_1 (Runner.sort_V Deploy.version_le ["v1.9.0"; "v2.0.0"]))
     ["v1.9.0"; "v2.0.0"].
Proof.
  destruct deploy_gate_uses_newest_tag as (_ & _ & Hmax & _ & H).
  split.
  - split; [reflexivity |].
    destruct (H Deploy.version_le eq_refl) as (_ & _ & _ & _ & _ & _ & Hp).
    exact Hp.
  - apply (Hmax Deploy.version_le ["v1.9.0"; "v2.0.0"]
             version_le_total version_le_trans).
    discriminate.
Defined.

(** C8. The publish step passes skip_existing: true to the action; so in
    every world a run that starts the step and in which the action works
    publishes without error whatever is on the index already: the step
    and the job succeed, the files that were on the index stay, those of
    dist/ are added, and when all files of dist/ are there already the
    index is left unchanged.  When the tools work and bash takes the ref
    literally, dist/ holds what was built from the release branch.
    Without the setting a file that exists makes the upload fail. *)
Theorem publish_skips_existing (w : Runner.world) (s : Runner.shared) :
  In ("skip_existing", [Expr.TLit "true"]) (Runner.s_with Deploy.publish)
  /\ (In Deploy.publish (Runner.executed (Deploy.run w s)) ->
      Runner.w_ok w "pypa/gh-action-pypi-publish@master" = true ->
      let r := Deploy.run w s in
      In (Deploy.publish, Runner.Success) (Runner.r_log r)
      /\ Runner.r_conclusion r = Runner.Success
      /\ Runner.index (Runner.sh (Runner.r_final r))
         = Runner.index s ∪ list_to_set (Runner.dist (Runner.r_final r))
      /\ ((forall f, In f (Runner.dist (Runner.r_final r)) ->
                     f ∈ Runner.index s) ->
          Runner.index (Runner.sh (Runner.r_final r)) = Runner.index s))
  /\ (Runner.tools_ok w Deploy.before_publish = true ->
      Str.shell_plain (Runner.w_ref w) = true ->
      Runner.dist (Runner.r_final (Deploy.run w s))
      = Runner.w_build w "release")
  /\ (forall (f : string) (fs : list string) (idx : gset string),
      f ∈ idx ->
      (Runner.upload false (f :: fs) idx).2 = false /\
      (Runner.upload true (f :: fs) idx).2 = true).
Proof.
  split; [simpl; tauto |]. split; [| split].
  - intros Hx Ha r.
    destruct (deploy_publish_outcome w s) as (H & _).
    destruct (H Hx Ha) as (Hlog & Hc & Hi).
    split; [exact Hlog |]. split; [exact Hc |]. split; [exact Hi |].
    intros Hall. unfold r. rewrite Hi.
    assert (list_to_set (Runner.dist (Runner.r_final (Deploy.run w s)))
            ⊆ Runner.index s).
    { intros f Hf. apply elem_of_list_to_set, list_elem_of_In in Hf. auto. }
    set_solver.
  - intros Hok Hp.
    by destruct (deploy_run_summary w s Hok Hp)
      as (_ & _ & _ & _ & _ & _ & _ & Hd).
  - intros f fs idx Hf. simpl. destruct (decide (f ∈ idx)); [| done].
    by rewrite upload_skip_existing.
Qed.

Lemma publish_skips_existing_witness :
  Runner.index
    (Runner.sh
       (Runner.r_final
          (Deploy.run (Deploy.old_tag_push Deploy.version_le)
                      Deploy.published)))
  = Runner.index Deploy.published.
Proof.
  destruct (publish_skips_existing (Deploy.old_tag_push Deploy.version_le)
              Deploy.published) as (_ & H & Hd & _).
  assert (Hx : In Deploy.publish
                 (Runner.executed
                    (Deploy.run (Deploy.old_tag_push Deploy.version_le)
                                Deploy.published))).
  { apply (publish_executed_iff (Deploy.old_tag_push Deploy.version_le)
             Deploy.published eq_refl eq_refl).
    split; reflexivity. }
  destruct (H Hx eq_refl) as (_ & _ & _ & Hi).
  apply Hi. rewrite (Hd eq_refl eq_refl).
  intros f [<- | [<- | []]]; unfold Deploy.published; simpl; set_solver.
Defined.

(** ** The Examples job *)

Section ExamplesFacts.
Import Expr Runner Log Examples ExamplesCases.

Ltac crunch :=
  cbn -[run_step tail_1 sort_V startsWith contains upload lookup union
        insert empty pytest_line];
  cbv [commit_env set_pending set_env set_tags set_tree set_trace
       set_dist set_sh set_pkgs_dir set_save_key fresh post_cache
       env pending tree tags pkgs_dir save_key dist trace sh];
  cbn -[run_step tail_1 sort_V startsWith contains upload lookup union
        insert empty pytest_line].
Ltac step := rewrite run_step_eq; crunch.

Lemma cache_number_env :
  ((<["CACHE_NUMBER" := "0"]> ∅ : gmap string string) ∪ ∅)
    !! "CACHE_NUMBER" = Some "0".
Proof. by simplify_map_eq. Qed.

Lemma ext_sem_pytest w st : ext_sem w pytest_line st = st.
Proof. reflexivity. Qed.

Ltac fold_key w s :=
  repeat match goal with
  | |- context [cache s !! (?r, ?k)] =>
      lazymatch k with
      | cache_key w (w_ref w) => fail
      | _ => replace k with (cache_key w (w_ref w))
               by (rewrite cache_number_env; reflexivity)
      end
  end.

Lemma examples_run_summary w c s :
  job_enabled w build = true ->
  tools_ok w (j_steps build) = true ->
  let r := run_job w build c s in
  let k := cache_key w (w_ref w) in
  r_conclusion r = Success
  /\ r_log r = map (fun x => (x, Success)) (j_steps build)
  /\ trace (r_final r) =
       ["conda install --file requirements/conda_requirements.txt";
        "conda install --file requirements/test_requirements.txt";
        "conda install pyamg";
        "pip install -e .";
        "conda install porespy";
        pytest_line]
  /\ pkgs_dir (r_final r) = installed w (default ∅ (visible w s))
  /\ cache (sh (r_final r)) =
       match visible w s with
       | Some _ => cache s
       | None => <[(w_ref w, k) := installed w ∅]> (cache s)
       end
  /\ index (sh (r_final r)) = index s.
Proof.
  intros Hen Hok. cbn -[pytest_line] in Hok. rewrite !andb_true_iff in Hok.
  destruct Hok as (H1 & H2 & H3 & H4 & H5 & H6 & H7 & H8 & H9 & H10 & _).
  unfold run_job. rewrite Hen. unfold run_steps.
  change (errexit_of (j_shell build)) with false. crunch.
  step. rewrite H1. crunch.
  step. rewrite H2. crunch.
  step. rewrite H3. crunch. fold_key w s.
  unfold installed, visible.
  destruct (cache s !! (w_ref w, cache_key w (w_ref w))) as [d|] eqn:Ek;
    crunch.
  - step. rewrite H4. crunch.
    step. rewrite H5. crunch. rewrite H6. crunch. rewrite H7. crunch.
    rewrite H8. crunch. rewrite H9. crunch.
    step. rewrite H10. crunch. rewrite !ext_sem_pytest. crunch.
    repeat (split; [reflexivity |]); reflexivity.
  - destruct (cache s !! (w_default w, cache_key w (w_ref w)))
      as [d|] eqn:Ed; crunch.
    + step. rewrite H4. crunch.
      step. rewrite H5. crunch. rewrite H6. crunch. rewrite H7. crunch.
      rewrite H8. crunch. rewrite H9. crunch.
      step. rewrite H10. crunch. rewrite !ext_sem_pytest. crunch.
      repeat (split; [reflexivity |]); reflexivity.
    + step. rewrite H4. crunch.
      step. rewrite H5. crunch. rewrite H6. crunch. rewrite H7. crunch.
      rewrite H8. crunch. rewrite H9. crunch.
      step. rewrite H10. crunch. rewrite !ext_sem_pytest. crunch.
      rewrite Ek. crunch.
      repeat (split; [reflexivity |]); reflexivity.
Qed.

Lemma job_enabled_build w :
  job_enabled w build =
  negb (Str.has_substring "ci min" (Str.lower (default "" (w_msg w)))) &&
  negb (Str.has_substring "ci skip" (Str.lower (default "" (w_msg w)))).
Proof. reflexivity. Qed.

End ExamplesFacts.

(** ** The Examples job in every world *)

Section ExamplesEveryWorld.
Import Expr Runner Log Examples ExamplesCases.

Ltac ecrunch :=
  cbn -[run_step tail_1 sort_V startsWith contains upload lookup union
        insert empty pytest_line];
  cbv [commit_env set_pending set_env set_tags set_tree set_trace
       set_dist set_sh set_pkgs_dir set_save_key fresh post_cache
       env pending tree tags pkgs_dir save_key dist trace sh];
  cbn -[run_step tail_1 sort_V startsWith contains upload lookup union
        insert empty pytest_line].
Ltac estep := rewrite run_step_eq; ecrunch.

Lemma examples_actions w c s :
  tools_ok w actions = true ->
  exists st,
    foldl (run_step false w c) (fresh s, true, []) actions
    = (st, true, map (fun x => (x, Success)) actions)
    /\ trace st = [].
Proof.
  intros Hok. cbn in Hok. rewrite !andb_true_iff in Hok.
  destruct Hok as (H1 & H2 & H3 & H4 & _).
  unfold actions. cbn [foldl].
  estep. rewrite H1. ecrunch.
  estep. rewrite H2. ecrunch.
  estep. rewrite H3. ecrunch.
  destruct (cache s !! (w_ref w, _)) as [d|] eqn:Ek; ecrunch;
    [| destruct (cache s !! (w_default w, _)) as [d|] eqn:Ed; ecrunch];
    (estep; rewrite H4; ecrunch; eexists; split; reflexivity).
Qed.

Lemma examples_run_shape w c s :
  job_enabled w build = true ->
  tools_ok w actions = true ->
  exists st,
    run_job w build c s
    = {| r_conclusion :=
           if w_ok w "conda install porespy" && w_ok w pytest_line
           then Success else Failure;
         r_log :=
           map (fun x => (x, Success)) actions
           ++ [(install_dependencies,
                if w_ok w "conda install porespy"
                then Success else Failure);
               (running_tests,
                if w_ok w "conda install porespy"
                then if w_ok w pytest_line then Success else Failure
                else Skipped)];
         r_final := st |}
    /\ trace st
       = flat_map cmd_tools (s_run install_dependencies)
         ++ (if w_ok w "conda install porespy" then [pytest_line] else []).
Proof.
  intros Hen Hok. unfold run_job. rewrite Hen. unfold run_steps.
  change (errexit_of (j_shell build)) with false.
  change (j_steps build)
    with (actions ++ [install_dependencies; running_tests]).
  rewrite foldl_app.
  destruct (examples_actions w c s Hok) as (st4 & -> & Ht4).
  cbn [foldl]. rewrite run_step_eq.
  change (s_if install_dependencies) with (@None expr).
  cbn [fmap option_fmap option_map default from_option andb].
  unfold step_body at 1.
  change (s_uses install_dependencies) with (@None string).
  cbv iota.
  pose proof (no_errexit_script w
    (step_ctx w c install_dependencies st4)
    (flat_map cmd_tools (s_run install_dependencies)) st4 true) as Hs.
  cbv zeta in Hs.
  change (map Ext (flat_map cmd_tools (s_run install_dependencies)))
    with (s_run install_dependencies) in Hs.
  destruct (exec_script _ _ _ _ _ _) as [st5 r5]. cbn [fst snd] in Hs.
  destruct Hs as [Ht5 Hr5]. rewrite Ht4 in Ht5. cbn [app] in Ht5.
  assert (Hr : r5 = w_ok w "conda install porespy") by exact Hr5.
  clear Hr5. subst r5.
  rewrite run_step_eq.
  change (s_if running_tests) with (@None expr).
  cbn [fmap option_fmap option_map default from_option].
  rewrite andb_true_r.
  destruct (w_ok w "conda install porespy") eqn:Hp.
  - unfold step_body.
    change (s_uses running_tests) with (@None string). cbv iota.
    change (s_run running_tests) with [Ext pytest_line].
    cbn [exec_script exec_cmd andb].
    destruct (w_ok w pytest_line) eqn:Hq.
    + rewrite ext_sem_pytest. cbn [andb negb]. eexists.
      rewrite <- app_assoc. split; [reflexivity |].
      rewrite post_cache_trace.
      change (trace (commit_env ?x)) with (trace x).
      cbn [trace set_trace].
      change (trace (commit_env st5)) with (trace st5). by rewrite Ht5.
    + cbn [andb negb]. eexists.
      rewrite <- app_assoc. split; [reflexivity |].
      rewrite post_cache_trace.
      change (trace (commit_env ?x)) with (trace x).
      cbn [trace set_trace].
      change (trace (commit_env st5)) with (trace st5). by rewrite Ht5.
  - cbn [andb]. eexists. rewrite <- app_assoc. split; [reflexivity |].
    rewrite post_cache_trace.
    change (trace (commit_env st5)) with (trace st5).
    by rewrite Ht5, app_nil_r.
Qed.

Lemma examples_actions_fail w c s :
  job_enabled w build = true ->
  tools_ok w actions = false ->
  let r := run_job w build c s in
  r_conclusion r = Failure /\ trace (r_final r) = [].
Proof.
  intros Hen Hok. cbv zeta. unfold run_job. rewrite Hen. unfold run_steps.
  change (errexit_of (j_shell build)) with false.
  cbn in Hok. ecrunch.
  estep. destruct (w_ok w "actions/checkout@v2"); ecrunch;
    [| repeat estep; by split].
  estep. destruct (w_ok w "actions/setup-python@v2"); ecrunch;
    [| repeat estep; by split].
  estep. destruct (w_ok w "actions/cache@v1"); ecrunch;
    [| repeat estep; by split].
  destruct (w_ok w "goanpeca/setup-miniconda@v1") eqn:H4; [done |].
  destruct (cache s !! (w_ref w, _)) as [d|] eqn:Ek; ecrunch;
    [| destruct (cache s !! (w_default w, _)) as [d|] eqn:Ed; ecrunch];
    (estep; rewrite H4; ecrunch; repeat estep; by split).
Qed.

(** The state after the first three steps: the directory that the
    run sees in the cache is restored, and a ref and key are kept for
    saving only when it sees none. *)
Lemma examples_cache_step w c s :
  exists st log,
    foldl (run_step false w c) (fresh s, true, []) cache_steps
    = (st, tools_ok w cache_steps, log)
    /\ sh st = s
    /\ (tools_ok w cache_steps = true ->
        match visible w s with
        | Some d => save_key st = None /\ pkgs_dir st = d
        | None => save_key st = Some (w_ref w, cache_key w (w_ref w))
        end)
    /\ (tools_ok w cache_steps = false -> save_key st = None).
Proof.
  unfold cache_steps, visible. cbn [foldl]. ecrunch.
  estep. destruct (w_ok w "actions/checkout@v2"); ecrunch;
    [| repeat estep; do 2 eexists; split; [reflexivity | by auto]].
  estep. destruct (w_ok w "actions/setup-python@v2"); ecrunch;
    [| repeat estep; do 2 eexists; split; [reflexivity | by auto]].
  estep. destruct (w_ok w "actions/cache@v1"); ecrunch;
    [| do 2 eexists; split; [reflexivity | by auto]].
  replace (w_os w +:+ _) with (cache_key w (w_ref w))
    by (rewrite cache_number_env; reflexivity).
  destruct (cache s !! (w_ref w, cache_key w (w_ref w))) as [d|] eqn:Ek;
    ecrunch.
  - do 2 eexists. split; [reflexivity |]. by auto.
  - destruct (cache s !! (w_default w, cache_key w (w_ref w)))
      as [d|] eqn:Ed; ecrunch.
    + do 2 eexists. split; [reflexivity |]. by auto.
    + do 2 eexists. split; [reflexivity |]. by auto.
Qed.



(** The cache after a run: an entry is added exactly when the run
    succeeded and saw none. *)
Lemma examples_cache_after w c s :
  cache (sh (r_final (run_job w build c s)))
  = match r_conclusion (run_job w build c s), visible w s with
    | Success, None =>
        <[(w_ref w, cache_key w (w_ref w)) :=
            pkgs_dir (r_final (run_job w build c s))]> (cache s)
    | _, _ => cache s
    end.
Proof.
  unfold run_job. destruct (job_enabled w build); [| done].
  unfold run_steps. change (errexit_of (j_shell build)) with false.
  change (j_steps build)
    with (cache_steps
          ++ [setup_conda; install_dependencies; running_tests]).
  rewrite foldl_app.
  destruct (examples_cache_step w c s) as (st3 & log3 & -> & Hs & Hk & Hf).
  pose proof (run_steps_frame false w c
                [setup_conda; install_dependencies; running_tests]
                st3 (tools_ok w cache_steps) log3) as H.
  cbv zeta in H.
  destruct (tools_ok w cache_steps) eqn:Hok.
  - specialize (Hk eq_refl).
    destruct (foldl _ _ _) as [[st ok] log].
    cbn [fst snd] in H. destruct H as (H1 & _ & _ & H4 & _).
    destruct (H4 eq_refl) as [H4' _]. rewrite Hs in H1.
    cbn [r_final r_conclusion]. unfold post_cache. rewrite H4'.
    unfold visible in *.
    destruct (cache s !! (w_ref w, cache_key w (w_ref w))) as [d|] eqn:Ek.
    + destruct Hk as [-> _]. by destruct ok.
    + destruct (cache s !! (w_default w, cache_key w (w_ref w)))
        as [d|] eqn:Ed.
      * destruct Hk as [-> _]. by destruct ok.
      * rewrite Hk. destruct ok; [| done].
        destruct (cache (sh st) !! (w_ref w, cache_key w (w_ref w)))
          eqn:E; [rewrite H1 in E; congruence |].
        cbn [sh set_sh cache pkgs_dir]. by rewrite H1.
  - rewrite skip_after_failure in *. cbn [fst snd] in H.
    cbn [r_final r_conclusion]. unfold post_cache.
    rewrite (Hf eq_refl). by rewrite Hs.
Qed.


End ExamplesEveryWorld.

(** C2, as stated, fails: a commit message with the marker in upper case
    contains neither "ci min" nor "ci skip", and the job is skipped. *)
Lemma examples_upper_case_marker_skips :
  Str.has_substring "ci min" "Update docs [CI SKIP]" = false /\
  Str.has_substring "ci skip" "Update docs [CI SKIP]" = false /\
  Runner.r_conclusion
    (Runner.run_job (Examples.push "Update docs [CI SKIP]" "numpy-1.19.0")
       Examples.build Examples.combo Examples.empty_shared)
  = Runner.Skipped.
Proof. repeat split; reflexivity. Qed.

(** C2, amended. The build job runs exactly when the head commit message,
    letter case ignored, contains neither "ci min" nor "ci skip"; a
    skipped job runs no step and leaves the shared state as it is. *)
Theorem examples_job_runs_iff_no_marker
    (w : Runner.world) (c : list (string * string)) (s : Runner.shared) :
  let msg := Str.lower (default "" (Runner.w_msg w)) in
  let r := Runner.run_job w Examples.build c s in
  (Runner.r_conclusion r <> Runner.Skipped <->
   ~ (exists a b, msg = a +:+ ("ci min" +:+ b)) /\
   ~ (exists a b, msg = a +:+ ("ci skip" +:+ b)))
  /\ (Runner.r_conclusion r = Runner.Skipped ->
      Runner.r_log r = [] /\ Runner.executed r = [] /\
      Runner.sh (Runner.r_final r) = s).
Proof.
  intros msg r. split.
  - unfold r. rewrite run_job_skipped, job_enabled_build.
    rewrite <- !has_substring_iff. fold msg.
    destruct (Str.has_substring "ci min" msg),
             (Str.has_substring "ci skip" msg); simpl;
      intuition congruence.
  - unfold r. rewrite run_job_skipped. intros Hoff.
    unfold Runner.run_job, Runner.executed. rewrite Hoff. done.
Qed.

Lemma examples_job_runs_iff_no_marker_witness :
  Runner.r_log
    (Runner.run_job (Examples.push "Fix typo [ci skip]" "numpy-1.19.0")
       Examples.build Examples.combo Examples.empty_shared) = [].
Proof.
  destruct (examples_job_runs_iff_no_marker
              (Examples.push "Fix typo [ci skip]" "numpy-1.19.0")
              Examples.combo Examples.empty_shared) as [_ H].
  destruct (H eq_refl) as [Hlog _]. exact Hlog.
Defined.

(** C4. The matrix of the build job has one combination, Python 3.7 on
    ubuntu-latest, and the Python version handed to the setup actions is
    that one; the test command is pytest --nbval examples/ with two
    --ignore options that name the two paper recreations; an event
    starts one run of the job; and a run whose tools work installs from
    the two requirements files with conda before pip install -e ., and
    ends with the test command. *)
Theorem examples_job_environment_and_tests :
  Runner.expand_matrix (Runner.j_matrix Examples.build)
  = [[("python-version", "3.7"); ("operating-system", "ubuntu-latest")]]
  /\ (forall (w : Runner.world) (st : Runner.state) (x : Runner.step),
      In x [Examples.setup_python; Examples.setup_conda] ->
      exists t, In ("python-version", t) (Runner.s_with x) /\
                Expr.eval_template (Runner.step_ctx w Examples.combo x st) t
                = "3.7")
  /\ Str.shell_words Examples.pytest_line
     = ["pytest"; "--nbval"; "examples/";
        "--ignore=examples/paper_recreations/Blunt et al. (2013)";
        "--ignore=examples/paper_recreations/Wu et al. (2010)"]
  /\ Examples.ignored (Str.shell_words Examples.pytest_line)
     = ["examples/paper_recreations/Blunt et al. (2013)";
        "examples/paper_recreations/Wu et al. (2010)"]
  /\ (forall (w : Runner.world) (s : Runner.shared),
      (Examples.run_all w Examples.build s).1
      = [Runner.run_job w Examples.build Examples.combo s])
  /\ (forall (w : Runner.world) (s : Runner.shared),
      Runner.job_enabled w Examples.build = true ->
      Runner.tools_ok w (Runner.j_steps Examples.build) = true ->
      let r := Runner.run_job w Examples.build Examples.combo s in
      Runner.r_conclusion r = Runner.Success
      /\ Runner.executed r = Runner.j_steps Examples.build
      /\ Runner.trace (Runner.r_final r)
         = ["conda install --file requirements/conda_requirements.txt";
            "conda install --file requirements/test_requirements.txt";
            "conda install pyamg";
            "pip install -e .";
            "conda install porespy";
            Examples.pytest_line]).
Proof.
  split; [reflexivity |]. split.
  { intros w st x [<- | [<- | []]]; eexists; (split; [simpl; eauto 10 |]);
      reflexivity. }
  split; [reflexivity |]. split; [reflexivity |].
  split; [reflexivity |].
  intros w s Hen Hok r.
  destruct (examples_run_summary w Examples.combo s Hen Hok)
    as (Hc & Hlog & Htr & _).
  split; [exact Hc |]. split; [| exact Htr].
  unfold Runner.executed, r. rewrite Hlog. reflexivity.
Qed.

Lemma examples_job_environment_and_tests_witness :
  Runner.executed
    (Runner.run_job Examples.first_push Examples.build Examples.combo
       Examples.empty_shared)
  = Runner.j_steps Examples.build.
Proof.
  destruct examples_job_environment_and_tests as (_ & _ & _ & _ & _ & H).
  destruct (H Examples.first_push Examples.empty_shared eq_refl eq_refl)
    as (_ & He & _).
  exact He.
Defined.




(** ** The notebooks *)

Section NotebookFacts.
Import Notebook.
Context (K : kernel).




End NotebookFacts.



(** ** The thermal conduction notebook *)

Section ThermalFacts.
Import Thermal.
Local Open Scope R_scope.

Lemma concat_rows {A} (r c : nat) (a : list A) :
  concat (rows r c a) = take (r * c) a.
Proof.
  revert a. induction r as [|r IH]; intros a; simpl; [done |].
  by rewrite IH, take_take_drop.
Qed.

Lemma rows_zip_with (f : R -> R -> R) (r c : nat) (a b : list R) :
  zip_with (zip_with f) (rows r c a) (rows r c b)
  = rows r c (zip_with f a b).
Proof.
  revert a b. induction r as [|r IH]; intros a b; simpl; [done |].
  by rewrite IH, zip_with_take, zip_with_drop.
Qed.

Lemma foldl_Rmin (l : list R) :
  forall x, In (foldl Rmin x l) (x :: l) /\
            Forall (fun y => foldl Rmin x l <= y) (x :: l).
Proof.
  induction l as [|y l IH]; intros x; simpl.
  - split; [tauto |]. apply Forall_cons. split; [lra | constructor].
  - destruct (IH (Rmin x y)) as [Hin Hall].
    apply Forall_cons in Hall as [Hm Hall].
    pose proof (Rmin_l x y). pose proof (Rmin_r x y).
    split.
    + destruct Hin as [Hin | Hin]; [| tauto].
      rewrite <- Hin. unfold Rmin. destruct (Rle_dec x y); tauto.
    + apply Forall_cons. split; [lra |].
      apply Forall_cons. split; [lra | exact Hall].
Qed.

Lemma foldl_Rmax (l : list R) :
  forall x, In (foldl Rmax x l) (x :: l) /\
            Forall (fun y => y <= foldl Rmax x l) (x :: l).
Proof.
  induction l as [|y l IH]; intros x; simpl.
  - split; [tauto |]. apply Forall_cons. split; [lra | constructor].
  - destruct (IH (Rmax x y)) as [Hin Hall].
    apply Forall_cons in Hall as [Hm Hall].
    pose proof (Rmax_l x y). pose proof (Rmax_r x y).
    split.
    + destruct Hin as [Hin | Hin]; [| tauto].
      rewrite <- Hin. unfold Rmax. destruct (Rle_dec x y); tauto.
    + apply Forall_cons. split; [lra |].
      apply Forall_cons. split; [lra | exact Hall].
Qed.

Lemma analytical_lookup (i : inputs) (p : nat) (a : R) :
  zip_with analytical (X i) (Y i) !! p = Some a <->
  exists c, coords i !! p = Some c /\ a = analytical c.1.1 c.1.2.
Proof.
  unfold X, Y. rewrite lookup_zip_with_Some. split.
  - intros (x & y & -> & Hx & Hy).
    change (map ?f ?l) with (f <$> l) in Hx, Hy.
    rewrite list_lookup_fmap in Hx, Hy.
    destruct (coords i !! p) as [c|]; [| discriminate].
    injection Hx as <-. injection Hy as <-. by exists c.
  - intros (c & Hc & ->). exists c.1.1, c.1.2.
    change (map ?f ?l) with (f <$> l).
    rewrite !list_lookup_fmap, Hc. done.
Qed.

Lemma pick_in_range {A} (a : list A) (idx : list nat) :
  Forall (fun p => (p < length a)%nat) idx ->
  exists s, pick a idx = Some s /\
            Forall2 (fun p y => a !! p = Some y) idx s.
Proof.
  intros Hall.
  destruct (mapM_is_Some_2 (fun p => a !! p) idx) as [s Hs].
  - eapply Forall_impl; [exact Hall |]. intros p Hp.
    by apply lookup_lt_is_Some_2.
  - exists s. split; [exact Hs |]. by apply mapM_Some_1.
Qed.

(** What the notebook computes, for any operation [f] in the place of
    the subtraction. *)
Lemma extremes_of_zip (f : R -> R -> R) (i : inputs) :
  well_sized i ->
  exists mn mx,
    (d ← (a ← soln i; b ← temp_map i; Some (zip_with (zip_with f) a b));
     extremes d) = Some (mn, mx)
    /\ (exists p, In p (internal i) /\ value_at f i p = Some mn)
    /\ (exists p, In p (internal i) /\ value_at f i p = Some mx)
    /\ (forall p v, In p (internal i) -> value_at f i p = Some v ->
                    mn <= v <= mx).
Proof.
  intros [Hrange Hlen].
  assert (Hlenxy : length (zip_with analytical (X i) (Y i))
                   = length (coords i)).
  { unfold X, Y. rewrite length_zip_with_l_eq; by rewrite !length_map. }
  destruct (pick_in_range (zip_with analytical (X i) (Y i)) (internal i))
    as (S & HS & HS2).
  { eapply Forall_impl; [exact Hrange |]. intros p [Hp _].
    by rewrite Hlenxy. }
  destruct (pick_in_range (temperature i) (internal i)) as (T & HT & HT2).
  { eapply Forall_impl; [exact Hrange |]. by intros p [_ Hp]. }
  pose proof (Forall2_length _ _ _ HS2) as HlS.
  pose proof (Forall2_length _ _ _ HT2) as HlT.
  unfold soln, temp_map, reshape. rewrite HS, HT.
  cbn [mbind option_bind]. rewrite !decide_True by congruence.
  cbn [mbind option_bind]. rewrite rows_zip_with.
  unfold extremes, amin, amax. rewrite concat_rows.
  assert (Hz : take (divs.1 * divs.2) (zip_with f S T) = zip_with f S T).
  { apply take_ge. rewrite length_zip_with_l_eq; lia. }
  rewrite Hz.
  assert (Hat : forall k v, zip_with f S T !! k = Some v ->
                 exists p, internal i !! k = Some p /\
                           value_at f i p = Some v).
  { intros k v Hk. apply lookup_zip_with_Some in Hk
      as (a & t & -> & Ha & Ht).
    destruct (Forall2_lookup_r _ _ _ _ _ HS2 Ha) as (p & Hp & Hpa).
    destruct (Forall2_lookup_r _ _ _ _ _ HT2 Ht) as (p' & Hp' & Hpt).
    assert (p' = p) as -> by congruence.
    apply analytical_lookup in Hpa as (c & Hc & ->).
    exists p. split; [exact Hp |]. unfold value_at. by rewrite Hc, Hpt. }
  assert (Hin : forall v, In v (zip_with f S T) ->
                 exists p, In p (internal i) /\ value_at f i p = Some v).
  { intros v Hv. apply list_elem_of_In, list_elem_of_lookup in Hv as [k Hk].
    destruct (Hat k v Hk) as (p & Hp & Hv). exists p. split; [| exact Hv].
    apply list_elem_of_In, list_elem_of_lookup. eauto. }
  assert (Hall : forall p v, In p (internal i) -> value_at f i p = Some v ->
                  In v (zip_with f S T)).
  { intros p v Hp Hv.
    apply list_elem_of_In, list_elem_of_lookup in Hp as [k Hk].
    destruct (Forall2_lookup_l _ _ _ _ _ HS2 Hk) as (a & Ha & Hpa).
    destruct (Forall2_lookup_l _ _ _ _ _ HT2 Hk) as (t & Ht & Hpt).
    apply analytical_lookup in Hpa as (c & Hc & ->).
    unfold value_at in Hv. rewrite Hc, Hpt in Hv. simpl in Hv.
    injection Hv as <-.
    apply list_elem_of_In, list_elem_of_lookup. exists k.
    apply lookup_zip_with_Some. eauto 10. }
  destruct (zip_with f S T) as [|x l] eqn:Hzip.
  { apply (f_equal length) in Hzip. rewrite length_zip_with_l_eq in Hzip
      by lia. simpl in Hzip, Hlen. lia. }
  cbn [mbind option_bind]. exists (foldl Rmin x l), (foldl Rmax x l).
  destruct (foldl_Rmin l x) as [Hmin1 Hmin2].
  destruct (foldl_Rmax l x) as [Hmax1 Hmax2].
  rewrite List.Forall_forall in Hmin2, Hmax2.
  split; [reflexivity |]. split; [by apply Hin |]. split; [by apply Hin |].
  intros p v Hp Hv. specialize (Hall p v Hp Hv). split; auto.
Qed.

Lemma report_as_claimed_flip (i : inputs) :
  report_as_claimed i
  = (d ← (a ← soln i; b ← temp_map i;
          Some (zip_with (zip_with (flip Rminus)) a b));
     extremes d).
Proof.
  unfold report_as_claimed, diff_as_claimed, sub.
  destruct (soln i) as [a|]; [| done].
  destruct (temp_map i) as [b|]; [| done].
  cbn [mbind option_bind].
  assert (zip_with (zip_with Rminus) b a
          = zip_with (zip_with (flip Rminus)) a b) as ->; [| done].
  rewrite <- (zip_with_flip (zip_with Rminus) b a).
  apply zip_with_ext; [| done | done].
  intros x y. unfold flip. by rewrite <- zip_with_flip.
Qed.

Lemma analytical_origin : analytical 0 0 = 50.
Proof.
  unfold analytical.
  replace (PI * 0 / 5) with 0 by lra. rewrite sinh_0.
  unfold Rdiv. ring.
Qed.

Lemma flat_plate_well_sized : well_sized flat_plate.
Proof.
  split; [| reflexivity].
  apply List.Forall_forall. intros p Hp. apply in_seq in Hp.
  unfold flat_plate. cbn [coords temperature].
  rewrite !length_replicate. lia.
Qed.

Lemma flat_plate_value (f : R -> R -> R) (p : nat) (v : R) :
  In p (internal flat_plate) ->
  value_at f flat_plate p = Some v -> v = f 50 49.
Proof.
  intros Hp Hv. apply in_seq in Hp. unfold value_at, flat_plate in Hv.
  cbn [coords temperature] in Hv.
  rewrite !lookup_replicate_2 in Hv by lia.
  cbn [mbind option_bind fst snd] in Hv. rewrite analytical_origin in Hv.
  congruence.
Qed.

End ThermalFacts.

(** C5, as stated, fails: on a plate whose analytical temperature is 50
    and whose simulated temperature is 49 everywhere, the notebook
    reports the errors 1 and 1, while the analytical solution subtracted
    from the simulated map gives -1 and -1. *)
Lemma thermal_difference_sign :
  Thermal.report Thermal.flat_plate = Some (1, 1)%R /\
  Thermal.report_as_claimed Thermal.flat_plate = Some (-1, -1)%R.
Proof.
  split.
  - destruct (extremes_of_zip Rminus Thermal.flat_plate flat_plate_well_sized)
      as (mn & mx & Hr & (p & Hp & Hmn) & (q & Hq & Hmx) & _).
    apply flat_plate_value in Hmn; [| exact Hp].
    apply flat_plate_value in Hmx; [| exact Hq].
    change (Thermal.report Thermal.flat_plate = Some (mn, mx)) in Hr.
    rewrite Hr, Hmn, Hmx. do 2 f_equal; lra.
  - destruct (extremes_of_zip (flip Rminus) Thermal.flat_plate
                flat_plate_well_sized)
      as (mn & mx & Hr & (p & Hp & Hmn) & (q & Hq & Hmx) & _).
    apply flat_plate_value in Hmn; [| exact Hp].
    apply flat_plate_value in Hmx; [| exact Hq].
    rewrite report_as_claimed_flip, Hr, Hmn, Hmx. unfold flip.
    do 2 f_equal; lra.
Qed.

(** C5, amended. The notebook evaluates
    30*sinh(pi*X/5)/sinh(pi/5)*sin(pi*Y/5) + 50 at the internal pores,
    subtracts the simulated temperature map from it, and reports the
    minimum and the maximum of that difference: when every internal pore
    has coordinates and a temperature and the internal pores fill the
    10 x 50 grid, the report exists, both of its numbers are the error
    (analytical minus simulated) at some internal pore, and the error at
    every internal pore lies between them. *)
Theorem thermal_report_compares_with_analytical (i : Thermal.inputs) :
  Thermal.well_sized i ->
  (forall x y : R,
      Thermal.analytical x y
      = (30 * sinh (PI * x / 5) / sinh (PI / 5) * sin (PI * y / 5) + 50)%R)
  /\ exists mn mx : R,
      Thermal.report i = Some (mn, mx)
      /\ (exists p, In p (Thermal.internal i) /\
                    Thermal.error_at i p = Some mn)
      /\ (exists p, In p (Thermal.internal i) /\
                    Thermal.error_at i p = Some mx)
      /\ (forall p e, In p (Thermal.internal i) ->
                      Thermal.error_at i p = Some e -> (mn <= e <= mx)%R).
Proof.
  intros Hw. split; [reflexivity |].
  exact (extremes_of_zip Rminus i Hw).
Qed.

Lemma thermal_report_compares_with_analytical_witness :
  Thermal.well_sized Thermal.flat_plate /\
  exists mn mx : R, Thermal.report Thermal.flat_plate = Some (mn, mx).
Proof.
  split; [exact flat_plate_well_sized |].
  destruct (thermal_report_compares_with_analytical Thermal.flat_plate
              flat_plate_well_sized) as (_ & mn & mx & Hr & _).
  exists mn, mx. exact Hr.
Defined.

(** ** More on the deploy job *)

Section DeployStrings.
Import Expr Runner Log Deploy.

Lemma chars_of_append (a b : string) :
  list_ascii_of_string (a +:+ b)
  = list_ascii_of_string a ++ list_ascii_of_string b.
Proof.
  induction a as [|x a IH]; [reflexivity |].
  change (String x a +:+ b) with (String x (a +:+ b)).
  cbn [list_ascii_of_string app]. by rewrite IH.
Qed.

Lemma no_char_after_remove (c : ascii) (s : string) :
  Str.has_substring (String c EmptyString) (Str.remove_char c s) = false.
Proof.
  destruct (Str.has_substring _ _) eqn:E; [| done].
  apply has_substring_iff in E as (a & b & E).
  assert (H : In c (list_ascii_of_string (Str.remove_char c s))).
  { rewrite E, !chars_of_append. apply in_or_app. right.
    apply in_or_app. left. by left. }
  rewrite remove_char_chars in H. apply filter_In in H as [_ H].
  by rewrite Ascii.eqb_refl in H.
Qed.

Lemma remove_absent_char (c : ascii) (s : string) :
  Str.has_substring (String c EmptyString) s = false ->
  Str.remove_char c s = s.
Proof.
  induction s as [|a s IH]; [done |]. intros H.
  cbn in H. apply orb_false_iff in H as [H1 H2].
  cbn [Str.remove_char]. destruct (Ascii.eqb a c) eqn:E.
  - apply Ascii.eqb_eq in E as ->.
    cbn in H1. by rewrite Ascii.eqb_refl in H1.
  - f_equal. by apply IH.
Qed.

Lemma started_subset (ok : string -> bool) (lines : list string) :
  forall l, In l (started ok lines) -> In l lines.
Proof.
  induction lines as [|x lines IH]; intros l; [done |].
  cbn [started]. intros [<- | H]; [by left |].
  right. destruct (ok x); [by apply IH | done].
Qed.

End DeployStrings.

Section DeployTrace.
Import Expr Runner Log Deploy.

Ltac dcrunch :=
  cbn -[run_step tail_1 sort_V startsWith contains upload lookup union
        Str.shell_plain python_print_version];
  cbv [commit_env set_pending set_env set_tags set_tree set_trace
       set_dist set_sh set_pkgs_dir set_save_key fresh post_cache
       started_programs bash_line apply_effect];
  cbn -[run_step tail_1 sort_V startsWith contains upload lookup union
        Str.shell_plain python_print_version].
Ltac dstep := rewrite run_step_eq; dcrunch.
Ltac dfail := repeat dstep; repeat split; reflexivity.

(** The programs a run of the deploy job starts, and the tree it
    builds from, when bash takes the pushed ref literally. *)
Lemma deploy_trace w s :
  Str.shell_plain (w_ref w) = true ->
  let r := run w s in
  trace (r_final r)
  = (if w_ok w "actions/checkout@v2" && w_ok w "actions/setup-python@v2"
     then "git fetch --all --tags" ::
          (if w_ok w "git fetch --all --tags"
           then ["git tag"; "sort -V"; "tail -1"; python_print_version]
                ++ started (w_ok w)
                     ["python -m pip install --upgrade pip";
                      "pip install setuptools wheel twine";
                      "python setup.py sdist bdist_wheel"]
           else [])
     else [])
  /\ tree (r_final r)
     = (if w_ok w "actions/checkout@v2" then "release" else "")
  /\ dist (r_final r)
     = (if tools_ok w before_publish then w_build w "release" else []).
Proof.
  intros Hp.
  cbv zeta. unfold run, run_job, job_enabled, run_steps. dcrunch.
  dstep. destruct (w_ok w "actions/checkout@v2") eqn:H1; dcrunch;
    [| dfail].
  dstep. destruct (w_ok w "actions/setup-python@v2") eqn:H2; dcrunch;
    [| dfail].
  dstep. destruct (w_ok w "git fetch --all --tags") eqn:H3; dcrunch;
    [| dfail].
  dstep. destruct (String.eqb _ _) eqn:E; dcrunch.
  - dstep. destruct (w_ok w "python -m pip install --upgrade pip") eqn:H4;
      dcrunch; [| dfail].
    destruct (w_ok w "pip install setuptools wheel twine") eqn:H5;
      dcrunch; [| dfail].
    rewrite Hp. dcrunch.
    dstep. destruct (w_ok w "python setup.py sdist bdist_wheel") eqn:H6;
      dcrunch; [| dfail].
    dstep. destruct (_ && _); dcrunch; [| repeat split; reflexivity].
    destruct (w_ok w "pypa/gh-action-pypi-publish@master"); dcrunch;
      [| repeat split; reflexivity].
    destruct (upload _ _ _) as [idx ok]. by destruct ok; repeat split.
  - dstep. destruct (w_ok w "python -m pip install --upgrade pip") eqn:H4;
      dcrunch; [| dfail].
    destruct (w_ok w "pip install setuptools wheel twine") eqn:H5;
      dcrunch; [| dfail].
    rewrite Hp. dcrunch.
    dstep. destruct (w_ok w "python setup.py sdist bdist_wheel") eqn:H6;
      dcrunch; [| dfail].
    dstep. destruct (_ && _); dcrunch; [| repeat split; reflexivity].
    destruct (w_ok w "pypa/gh-action-pypi-publish@master"); dcrunch;
      [| repeat split; reflexivity].
    destruct (upload _ _ _) as [idx ok]. by destruct ok; repeat split.
Qed.

End DeployTrace.

Section DeployExtras.
Import Expr Runner Log Deploy DeployCases.

(** X1. When bash takes the pushed ref literally (the ref has letters,
    digits and [/ . _ - + @ % ,] only), the publish step of the deploy
    job is started exactly when every program and action of the six
    steps before it completed without error, the ref starts with
    refs/tags, and the newest tag with its letters v removed is the
    version of the release branch: the scripts run under [bash -e], so
    one failing command before the publish step prevents the upload.
    When the tools work the build step is started, and on a mismatch
    the job still succeeds. *)
Theorem deploy_publish_needs_every_step (w : world) (s : shared) :
  Str.shell_plain (w_ref w) = true ->
  let r := run w s in
  (In publish (executed r) <->
   tools_ok w before_publish = true /\
   startsWith (w_ref w) "refs/tags" = true /\ tag_matches w = true)
  /\ (tools_ok w before_publish = true ->
      In build_distribution (executed r) /\
      (tag_matches w = false -> r_conclusion r = Success)).
Proof.
  intros Hp r. split; [exact (publish_executed_plain w s Hp) |].
  intros Hok. split.
  - apply (executed_deploy w s _ Hok Hp). left.
    unfold before_publish. simpl. tauto.
  - intros Hm.
    destruct (deploy_run_summary w s Hok Hp) as (_ & Hc & _).
    unfold r. by rewrite Hc, Hm, andb_false_r.
Qed.

Lemma deploy_publish_needs_every_step_witness :
  In publish
     (executed (run (old_tag_push version_le) empty_shared)).
Proof.
  destruct (deploy_publish_needs_every_step (old_tag_push version_le)
              empty_shared eq_refl) as [H _].
  apply H. repeat split; reflexivity.
Defined.

(** X2. When a program or action of the steps before the publish step
    fails, the deploy job concludes with a failure, the publish step is
    not started, and the cache and the package index are as they
    were. *)
Theorem deploy_failed_tool_fails_run (w : world) (s : shared) :
  tools_ok w before_publish = false ->
  let r := run w s in
  r_conclusion r = Failure /\ ~ In publish (executed r) /\
  cache (sh (r_final r)) = cache s /\ index (sh (r_final r)) = index s.
Proof. exact (deploy_run_failed w s). Qed.

Lemma deploy_failed_tool_fails_run_witness :
  r_conclusion (run pip_fails published) = Failure /\
  index (sh (r_final (run pip_fails published))) = index published.
Proof.
  destruct (deploy_failed_tool_fails_run pip_fails published eq_refl)
    as (H1 & _ & _ & H2).
  split; [exact H1 | exact H2].
Defined.

(** X3. The script compares the tag with every letter v deleted
    ([${TAG//v}]) with the version; so, when bash takes the pushed ref
    literally, a version that has the letter v in it, as every .dev
    version has, is never published, whatever the tags are. *)
Theorem deploy_version_with_v_never_published (w : world) (s : shared) :
  Str.shell_plain (w_ref w) = true ->
  Str.has_substring "v" (w_version w "release") = true ->
  ~ In publish (executed (run w s)).
Proof.
  intros Hp Hv Hin.
  apply (publish_executed_plain w s Hp) in Hin as (_ & _ & Hm).
  unfold tag_matches in Hm. apply String.eqb_eq in Hm.
  rewrite <- Hm in Hv.
  pose proof (no_char_after_remove "v" (newest_tag w)) as Hn.
  congruence.
Qed.

Lemma deploy_version_with_v_never_published_witness :
  ~ In publish (executed (run dev_version_push empty_shared)).
Proof.
  exact (deploy_version_with_v_never_published dev_version_push
           empty_shared eq_refl eq_refl).
Defined.

(** X4. When the tools of the earlier steps work, a tag was pushed whose
    ref bash takes literally, the version has no letter v and the
    newest tag is the version with a v in front, the publish step is
    started. *)
Theorem deploy_v_prefixed_tag_is_published (w : world) (s : shared) :
  tools_ok w before_publish = true ->
  Str.shell_plain (w_ref w) = true ->
  startsWith (w_ref w) "refs/tags" = true ->
  Str.has_substring "v" (w_version w "release") = false ->
  newest_tag w = "v" +:+ w_version w "release" ->
  In publish (executed (run w s)).
Proof.
  intros Hok Hp Href Hv Htag. apply (publish_executed_plain w s Hp).
  split; [done |]. split; [done |].
  unfold tag_matches. rewrite Htag.
  change ("v" +:+ w_version w "release")
    with (String "v" (w_version w "release")).
  cbn [Str.remove_char]. rewrite Ascii.eqb_refl.
  rewrite (remove_absent_char "v" _ Hv). apply String.eqb_refl.
Qed.

Lemma deploy_v_prefixed_tag_is_published_witness :
  In publish (executed (run (old_tag_push version_le) published)).
Proof.
  exact (deploy_v_prefixed_tag_is_published (old_tag_push version_le)
           published eq_refl eq_refl eq_refl eq_refl eq_refl).
Defined.

(** X5. In every world a run of the deploy job leaves the cache as it
    was and removes nothing from the package index; when the publish
    step is not started the index is as it was; and when bash takes
    the pushed ref literally, a file that the run adds to the index is
    one built from the release branch. *)
Theorem deploy_adds_only_release_files (w : world) (s : shared) :
  let r := run w s in
  cache (sh (r_final r)) = cache s /\
  index s ⊆ index (sh (r_final r)) /\
  (~ In publish (executed r) -> index (sh (r_final r)) = index s) /\
  (Str.shell_plain (w_ref w) = true ->
   forall f, f ∈ index (sh (r_final r)) ->
             f ∈ index s \/ In f (w_build w "release")).
Proof.
  cbv zeta.
  destruct (run_job_frame w deploy [] s) as (F1 & _ & _ & _ & F5).
  destruct (deploy_publish_outcome w s) as (_ & Hnot & _).
  split; [exact (F5 eq_refl) |]. split; [exact F1 |].
  split; [exact Hnot |]. intros Hp f.
  destruct (tools_ok w before_publish) eqn:Hok.
  - destruct (deploy_run_summary w s Hok Hp)
      as (_ & _ & _ & _ & _ & Hi & _).
    cbv zeta in Hi. rewrite upload_skip_existing in Hi. cbn [fst] in Hi.
    rewrite Hi. destruct (_ && _); [| by left].
    rewrite elem_of_union, elem_of_list_to_set, list_elem_of_In. tauto.
  - destruct (deploy_run_failed w s Hok) as (_ & _ & _ & Hi).
    rewrite Hi. by left.
Qed.

(** X6. When bash takes the pushed ref literally, the programs that a
    run of the deploy job starts are these, in this order: none when
    one of the first two actions fails; else [git fetch]; when it
    works, the programs of the two command substitutions, whatever
    their status, and then the three commands of the install and build
    steps up to and including the first that fails.  The tree is the
    release branch once the checkout worked, and dist/ holds what was
    built from that tree exactly when every tool before the publish
    step worked. *)
Theorem deploy_commands_started (w : world) (s : shared) :
  Str.shell_plain (w_ref w) = true ->
  let r := run w s in
  trace (r_final r)
  = (if w_ok w "actions/checkout@v2" && w_ok w "actions/setup-python@v2"
     then "git fetch --all --tags" ::
          (if w_ok w "git fetch --all --tags"
           then capture_programs GitTagSortVTail1
                ++ capture_programs PythonPrintVersion
                ++ started (w_ok w)
                     (flat_map step_tools
                        [install_dependencies; build_distribution])
           else [])
     else [])
  /\ tree (r_final r)
     = (if w_ok w "actions/checkout@v2" then "release" else "")
  /\ dist (r_final r)
     = (if tools_ok w before_publish then w_build w "release" else []).
Proof. exact (deploy_trace w s). Qed.

Lemma deploy_commands_started_witness :
  trace (r_final (run pip_fails empty_shared))
  = ["git fetch --all --tags"; "git tag"; "sort -V"; "tail -1";
     python_print_version; "python -m pip install --upgrade pip";
     "pip install setuptools wheel twine"].
Proof.
  destruct (deploy_commands_started pip_fails empty_shared eq_refl)
    as [H _].
  exact H.
Defined.

(** X18. When bash takes the pushed ref literally, no program that a run
    of the deploy job starts deletes a tag, whatever the tags, the
    version and the outcome of the tools are: every program started is
    one that the file names, and the step that would push the deletion
    of a tag is kept in comments. *)
Theorem deploy_plain_ref_deletes_no_tag (w : world) (s : shared) :
  Str.shell_plain (w_ref w) = true ->
  Forall (fun line => In line (flat_map step_programs (j_steps deploy)) /\
                      deletes_tag line = false)
         (trace (r_final (run w s))).
Proof.
  intros Hp. destruct (deploy_trace w s Hp) as [Ht _]. rewrite Ht.
  apply List.Forall_forall. intros l Hl.
  assert (Hin : In l (flat_map step_programs (j_steps deploy))).
  { destruct (_ && _); [| done]. destruct Hl as [<- | Hl]; [by left |].
    destruct (w_ok w "git fetch --all --tags"); [| done].
    apply in_app_or in Hl as [Hl | Hl].
    - right. cbn. cbn in Hl. tauto.
    - apply started_subset in Hl. right. cbn. cbn in Hl. tauto. }
  split; [exact Hin |].
  cbn in Hin.
  repeat (destruct Hin as [<- | Hin]; [by vm_compute |]). done.
Qed.

Lemma deploy_plain_ref_deletes_no_tag_witness :
  Forall (fun line => deletes_tag line = false)
         (trace (r_final (run (old_tag_push version_le) empty_shared))).
Proof.
  eapply Forall_impl.
  - exact (deploy_plain_ref_deletes_no_tag (old_tag_push version_le)
             empty_shared eq_refl).
  - intros l [_ H]. exact H.
Defined.

End DeployExtras.

(** ** The trigger of the deploy workflow *)

Section TriggerFacts.
Import Expr Runner Log Deploy Trigger.

Lemma star_matches (s : string) :
  matches [Star] s = negb (Str.has_substring "/" s).
Proof.
  induction s as [|a s IH]; [reflexivity |].
  change (matches [Star] (String a s))
    with (false || (negb (Ascii.eqb a "/") && matches [Star] s)).
  rewrite IH. cbn [Str.has_substring Str.has_prefix orb].
  rewrite (Ascii.eqb_sym a "/").
  destruct (Ascii.eqb "/" a); reflexivity.
Qed.

Lemma substring_all_after (p t : string) :
  String.substring (String.length p)
    (String.length (p +:+ t) - String.length p) (p +:+ t) = t.
Proof.
  induction p as [|a p IH].
  - change ("" +:+ t) with t. cbn [String.length].
    rewrite Nat.sub_0_r. clear. induction t as [|b t IH]; [reflexivity |].
    cbn [String.length String.substring]. by rewrite IH.
  - change (String a p +:+ t) with (String a (p +:+ t)).
    cbn [String.length String.substring Nat.sub]. exact IH.
Qed.

Lemma tag_of_Some (ref name : string) :
  tag_of ref = Some name <-> ref = "refs/tags/" +:+ name.
Proof.
  unfold tag_of. destruct (Str.has_prefix "refs/tags/" ref) eqn:E.
  - apply has_prefix_iff in E as [t ->].
    change 10%nat with (String.length "refs/tags/").
    rewrite substring_all_after. split.
    + by intros [= ->].
    + intros H. f_equal.
      change ("refs/tags/" +:+ t) with
        (String "r" (String "e" (String "f" (String "s" (String "/"
         (String "t" (String "a" (String "g" (String "s" (String "/"
          t)))))))))) in H.
      change ("refs/tags/" +:+ name) with
        (String "r" (String "e" (String "f" (String "s" (String "/"
         (String "t" (String "a" (String "g" (String "s" (String "/"
          name)))))))))) in H.
      congruence.
  - split; [discriminate |]. intros ->.
    assert (Str.has_prefix "refs/tags/" ("refs/tags/" +:+ name) = true)
      by (apply has_prefix_iff; eauto).
    congruence.
Qed.

Lemma deploy_triggered_iff (ref : string) :
  triggered deploy_to_pypi ref = Some true <->
  exists name, ref = "refs/tags/" +:+ name /\
               Str.has_substring "/" name = false.
Proof.
  unfold triggered. cbn [wf_on_push_tags deploy_to_pypi].
  destruct (tag_of ref) as [name|] eqn:E.
  - apply tag_of_Some in E as ->.
    cbn [foldr]. unfold glob.
    change (tokens "*") with (Some [Star]).
    cbn [fmap option_fmap option_map mbind option_bind].
    rewrite star_matches, orb_false_r. split.
    + intros [= H]. exists name. split; [done |].
      by apply negb_true_iff in H.
    + intros (n & Hn & Hs). apply tag_of_Some in Hn.
      assert (tag_of ("refs/tags/" +:+ name) = Some name)
        by (by apply tag_of_Some).
      assert (n = name) as -> by congruence. by rewrite Hs.
  - split; [discriminate |]. intros (n & Hn & _).
    apply tag_of_Some in Hn. congruence.
Qed.

(** X17. The deploy workflow is started by the push of a tag whose name
    has no slash, and by no other push; the ref of such a push starts
    with refs/tags, so the test of the ref in the condition of the
    publish step always holds in a run that a push started.  When bash
    takes the ref literally, the publish step of such a run is started
    exactly when the tools of the earlier steps work and the newest
    tag, its letters v removed, is the version. *)
Theorem deploy_trigger_and_gate (w : world) (s : shared) :
  (triggered deploy_to_pypi (w_ref w) = Some true <->
   exists name, w_ref w = "refs/tags/" +:+ name /\
                Str.has_substring "/" name = false) /\
  (triggered deploy_to_pypi (w_ref w) = Some true ->
   startsWith (w_ref w) "refs/tags" = true /\
   (Str.shell_plain (w_ref w) = true ->
    (In publish (executed (run w s)) <->
     tools_ok w before_publish = true /\ tag_matches w = true))).
Proof.
  split; [apply deploy_triggered_iff |]. intros Ht.
  apply deploy_triggered_iff in Ht as (name & Href & _).
  assert (Hs : startsWith (w_ref w) "refs/tags" = true).
  { rewrite Href. reflexivity. }
  split; [exact Hs |]. intros Hp.
  rewrite (publish_executed_plain w s Hp). tauto.
Qed.

End TriggerFacts.

(** ** More on the Examples job *)

Section ExamplesExtras.
Import Expr Runner Log Examples ExamplesCases.

(** X7. The scripts of the build job run under [bash -l {0}], without
    [-e]: when the four actions work, all five lines of the install
    step are run, whichever of them fail, and the step succeeds exactly
    when its last line, [conda install porespy], does; the tests are run
    exactly then.  A failure of [pip install -e .] or of one of the
    first three conda commands is not noticed by the step. *)
Theorem examples_install_errors_unchecked
    (w : world) (c : list (string * string)) (s : shared) :
  job_enabled w build = true ->
  tools_ok w actions = true ->
  let r := run_job w build c s in
  let porespy := w_ok w "conda install porespy" in
  trace (r_final r)
  = flat_map cmd_tools (s_run install_dependencies)
    ++ (if porespy then [pytest_line] else [])
  /\ r_log r
     = map (fun x => (x, Success)) actions
       ++ [(install_dependencies, if porespy then Success else Failure);
           (running_tests,
            if porespy
            then if w_ok w pytest_line then Success else Failure
            else Skipped)].
Proof.
  intros Hen Hok. cbv zeta.
  destruct (examples_run_shape w c s Hen Hok) as (st & -> & Ht).
  cbn [r_final r_log]. by split.
Qed.

Lemma examples_install_errors_unchecked_witness :
  r_log (run_job pip_e_fails build combo empty_shared)
  = map (fun x => (x, Success)) (j_steps build).
Proof.
  destruct (examples_install_errors_unchecked pip_e_fails combo
              empty_shared eq_refl eq_refl) as [_ H].
  exact H.
Defined.

(** X8. A run of the build job that is not skipped succeeds exactly
    when the four actions, the last line of the install step and the
    test command complete without error; when an action fails no
    command is started. *)
Theorem examples_success_iff
    (w : world) (c : list (string * string)) (s : shared) :
  job_enabled w build = true ->
  let r := run_job w build c s in
  (r_conclusion r = Success <->
   tools_ok w actions = true /\
   w_ok w "conda install porespy" = true /\ w_ok w pytest_line = true)
  /\ (r_conclusion r <> Success -> r_conclusion r = Failure)
  /\ (tools_ok w actions = false -> trace (r_final r) = []).
Proof.
  intros Hen. cbv zeta. destruct (tools_ok w actions) eqn:Hok.
  - destruct (examples_run_shape w c s Hen Hok) as (st & -> & Ht).
    cbn [r_conclusion].
    destruct (w_ok w "conda install porespy"), (w_ok w pytest_line);
      cbn [andb]; (split; [split; [by auto | by intros (_ & ? & ?)] |]);
      split; done.
  - destruct (examples_actions_fail w c s Hen Hok) as [Hc Ht].
    rewrite Hc. split; [split; [done | by intros [? _]] |]. by split.
Qed.

Lemma examples_success_iff_witness :
  r_conclusion (run_job tests_fail build combo empty_shared) = Failure.
Proof.
  destruct (examples_success_iff tests_fail combo empty_shared eq_refl)
    as (H1 & H & _).
  apply H. intros E. apply H1 in E as (_ & _ & E). discriminate E.
Defined.

(** X9. In every world a run of the build job leaves the package index
    as it was, and changes the cache at most by adding one entry, under
    the ref and the key of the run; it does so only when the run saw no
    entry, neither of its own ref nor of the default branch, and the
    job succeeded.  So an entry is never replaced, and a failed run
    saves nothing. *)
Theorem examples_cache_only_grows
    (w : world) (c : list (string * string)) (s : shared) :
  let r := run_job w build c s in
  let k := (w_ref w, cache_key w (w_ref w)) in
  index (sh (r_final r)) = index s /\
  (cache (sh (r_final r)) = cache s \/
   (visible w s = None /\ r_conclusion r = Success /\
    cache (sh (r_final r)) = <[k := pkgs_dir (r_final r)]> (cache s))) /\
  (forall k' d, cache s !! k' = Some d ->
                cache (sh (r_final r)) !! k' = Some d).
Proof.
  cbv zeta.
  destruct (run_job_frame w build c s) as (_ & _ & _ & F4 & _).
  split; [exact (F4 eq_refl) |]. clear F4.
  pose proof (examples_cache_after w c s) as H.
  destruct (r_conclusion (run_job w build c s)) eqn:Hc;
    try (split; [by left | by rewrite H]).
  destruct (visible w s) eqn:Hv; [split; [by left | by rewrite H] |].
  split; [by right |]. intros k' d Hk. rewrite H.
  rewrite lookup_insert_ne; [done |]. intros <-.
  unfold visible in Hv. rewrite Hk in Hv. discriminate Hv.
Qed.

End ExamplesExtras.

(** ** What nbval compares *)

Section PrintingFacts.
Import Notebook Printing.
Context (K : kernel).

Lemma exec_stmts_outputs (v : place K) (q : nat) (ss : list stmt) :
  forall st,
    prints_at q (k_prec st) ss = true ->
    k_prec (exec_stmts K v ss st).1 = prec_after (k_prec st) ss /\
    forall o, In o (exec_stmts K v ss st).2 ->
      (exists t h, In (PrintCall t) ss /\ o = Text (render K t q h)) \/
      (exists t f, In (PlotCall t) ss /\ o = Figure f).
Proof.
  induction ss as [|s ss IH]; intros st Hp; [by split |].
  cbn [exec_stmts].
  destruct (exec_stmt K v s st) as [st1 o1] eqn:E.
  assert (H : prints_at q (k_prec st1) ss = true /\
              prec_after (k_prec st1) ss
              = prec_after (k_prec st) (s :: ss) /\
              forall o, In o o1 ->
                (exists t h, s = PrintCall t /\
                             o = Text (render K t q h)) \/
                (exists t f, s = PlotCall t /\ o = Figure f)).
  { destruct s as [t|t|t|n|p|t|t|t|t]; cbn [exec_stmt] in E;
      cbn [prints_at prec_after] in *;
      try (destruct (lib K t _) as [r h]);
      injection E as <- <-; cbn [k_prec];
      try (split; [exact Hp | split; [reflexivity | by intros o []]]).
    - apply andb_true_iff in Hp as [Hq Hp]. apply Nat.eqb_eq in Hq.
      split; [exact Hp |]. split; [reflexivity |].
      intros o [<- | []]. left. exists t, (k_heap st). by rewrite Hq.
    - split; [exact Hp |]. split; [reflexivity |].
      intros o [<- | []]. right. by exists t, (figure K t v (k_heap st)). }
  destruct H as (H1 & H2 & H3).
  destruct (IH st1 H1) as [I1 I2].
  destruct (exec_stmts K v ss st1) as [st2 o2]. cbn [fst snd] in *.
  split; [by rewrite I1 |].
  intros o [Ho | Ho]%in_app_or.
  - destruct (H3 o Ho) as [(t & h & -> & ->) | (t & f & -> & ->)].
    + left. exists t, h. split; [by left | done].
    + right. exists t, f. split; [by left | done].
  - destruct (I2 o Ho) as [(t & h & Ht & ->) | (t & f & Ht & ->)].
    + left. exists t, h. split; [by right | done].
    + right. exists t, f. split; [by right | done].
Qed.

Lemma exec_cells_outputs (v : place K) (q : nat) (cs : list cell) :
  forall st,
    cells_print_at q (k_prec st) cs = true ->
    forall c outs o,
      In (c, outs) (exec_cells K v cs st) -> In o outs ->
      (exists t h, In (PrintCall t) (body c) /\
                   o = Text (render K t q h)) \/
      (exists t f, In (PlotCall t) (body c) /\ o = Figure f).
Proof.
  induction cs as [|c cs IH]; intros st Hp c' outs o Hin Ho; [done |].
  cbn [cells_print_at] in Hp. apply andb_true_iff in Hp as [Hc Hcs].
  cbn [exec_cells] in Hin.
  destruct (exec_stmts_outputs v q (body c) st Hc) as [E1 E2].
  destruct (exec_stmts K v (body c) st) as [st1 o1]. cbn [fst snd] in *.
  destruct Hin as [Hin | Hin].
  - injection Hin as <- <-. by apply E2.
  - rewrite <- E1 in Hcs. exact (IH st1 Hcs c' outs o Hin Ho).
Qed.

(** Every output that nbval compares is a text, printed at the
    precision [q]. *)
Lemma checked_outputs (nb : notebook) (q : nat) (entropy : rng K)
    (v : place K) :
  cells_print_at q 8 (cells nb) = true ->
  plots_marked nb = true ->
  forall outs o,
    In outs (checked (exec K nb entropy v)) -> In o outs ->
    exists t h, o = Text (render K t q h).
Proof.
  intros Hp Hm outs o Hin Ho. unfold checked in Hin.
  apply in_map_iff in Hin as ([c outs'] & <- & Hin).
  apply filter_In in Hin as [Hin Hc]. cbn [fst snd] in *.
  assert (Hcell : In c (cells nb)).
  { unfold exec in Hin. clear -Hin. revert Hin.
    generalize (start K entropy). induction (cells nb) as [|c' cs IH];
      intros st Hin; [done |].
    cbn [exec_cells] in Hin.
    destruct (exec_stmts K v (body c') st) as [st1 o1].
    destruct Hin as [Hin | Hin]; [injection Hin as <- _; by left |].
    right. by eapply IH. }
  destruct (exec_cells_outputs v q (cells nb) (start K entropy) Hp
              c outs' o Hin Ho) as [(t & h & _ & ->) | (t & f & Ht & _)].
  - by exists t, h.
  - exfalso. unfold plots_marked in Hm. rewrite forallb_forall in Hm.
    specialize (Hm c Hcell). apply negb_true_iff in Hc. rewrite Hc in Hm.
    assert (Hd : draws c = true).
    { unfold draws. apply existsb_exists. by exists (PlotCall t). }
    by rewrite Hd in Hm.
Qed.

End PrintingFacts.

(** X11. Whatever the kernel, the entropy and the place of drawing, every
    output of the three notebooks that nbval compares is a text, printed
    while the print precision is the 5 that the first cell sets: no
    figure is compared, and no print comes before the precision is set
    or after it is changed. *)
Theorem notebooks_compare_text_at_precision_5
    (K : Notebook.kernel) (nb : Notebook.notebook)
    (entropy : Notebook.rng K) (v : Notebook.place K) :
  In nb Notebook.notebooks ->
  forall outs o,
    In outs (Notebook.checked (Notebook.exec K nb entropy v)) ->
    In o outs ->
    exists t h, o = Notebook.Text (Notebook.render K t 5 h).
Proof.
  intros Hnb. apply checked_outputs.
  - destruct Hnb as [<- | [<- | [<- | []]]]; reflexivity.
  - destruct Hnb as [<- | [<- | [<- | []]]]; reflexivity.
Qed.

Lemma notebooks_compare_text_at_precision_5_witness :
  exists t h,
    Notebook.Text "odd"
    = Notebook.Text (Notebook.render Notebook.counter_kernel t 5 h).
Proof.
  apply (notebooks_compare_text_at_precision_5 Notebook.counter_kernel
           Notebook.fickian_diffusion 0%nat true
           (or_intror (or_introl eq_refl))
           [Notebook.Text "odd"] (Notebook.Text "odd")).
  - vm_compute. do 8 right. left. reflexivity.
  - left. reflexivity.
Defined.

(** ** The arrays of the thermal conduction notebook *)

Section PlateFacts.
Import Thermal Plate.
Local Open Scope R_scope.

Lemma width_1 : width = 1.
Proof.
  unfold width, Lc, divs. cbn [fst].
  replace (INR 10) with 10 by (rewrite INR_IZR_INZ; reflexivity). lra.
Qed.

Lemma height_5 : height = 5.
Proof.
  unfold height, Lc, divs. cbn [snd].
  replace (INR 50) with 50 by (rewrite INR_IZR_INZ; reflexivity). lra.
Qed.

Lemma sinh_pos (x : R) : 0 < x -> 0 < sinh x.
Proof. intros H. rewrite <- sinh_0. by apply sinh_lt. Qed.

Lemma sinh_PI5_pos : 0 < sinh (PI / 5).
Proof. apply sinh_pos. pose proof PI_RGT_0. lra. Qed.

Lemma sinh_le (x y : R) : x <= y -> sinh x <= sinh y.
Proof.
  intros [H | ->]; [left; by apply sinh_lt | right; reflexivity].
Qed.

(** The picked arrays of a well-sized input, and what the notebook
    makes of them. *)
Lemma thermal_arrays (i : inputs) :
  well_sized i ->
  exists S T,
    pick (zip_with analytical (X i) (Y i)) (internal i) = Some S
    /\ pick (temperature i) (internal i) = Some T
    /\ length S = (divs.1 * divs.2)%nat
    /\ length T = (divs.1 * divs.2)%nat
    /\ soln i = Some (rows divs.1 divs.2 S)
    /\ temp_map i = Some (rows divs.1 divs.2 T)
    /\ diff i = Some (rows divs.1 divs.2 (zip_with Rminus S T)).
Proof.
  intros [Hrange Hlen].
  assert (Hlenxy : length (zip_with analytical (X i) (Y i))
                   = length (coords i)).
  { unfold X, Y. rewrite length_zip_with_l_eq; by rewrite !length_map. }
  destruct (pick_in_range (zip_with analytical (X i) (Y i)) (internal i))
    as (S & HS & HS2).
  { eapply Forall_impl; [exact Hrange |]. intros p [Hp _].
    by rewrite Hlenxy. }
  destruct (pick_in_range (temperature i) (internal i)) as (T & HT & HT2).
  { eapply Forall_impl; [exact Hrange |]. by intros p [_ Hp]. }
  pose proof (Forall2_length _ _ _ HS2) as HlS.
  pose proof (Forall2_length _ _ _ HT2) as HlT.
  exists S, T. split; [exact HS |]. split; [exact HT |].
  split; [congruence |]. split; [congruence |].
  unfold diff, sub, soln, temp_map, reshape. rewrite HS, HT.
  cbn [mbind option_bind]. rewrite !decide_True by congruence.
  cbn [mbind option_bind]. by rewrite rows_zip_with.
Qed.

Lemma pick_Some_range {A} (a : list A) (idx : list nat) (s : list A) :
  pick a idx = Some s ->
  length s = length idx /\ Forall (fun p => (p < length a)%nat) idx.
Proof.
  intros H. apply mapM_Some_1 in H.
  split; [symmetry; by eapply Forall2_length |].
  apply Forall_forall. intros p Hp.
  apply list_elem_of_lookup in Hp as [k Hk].
  destruct (Forall2_lookup_l _ _ _ _ _ H Hk) as (y & _ & Hy).
  by eapply lookup_lt_Some.
Qed.

Lemma report_defined (i : inputs) : is_Some (report i) -> well_sized i.
Proof.
  intros [mm H]. unfold report, diff in H.
  destruct (soln i) as [a|] eqn:Ea; [| discriminate].
  destruct (temp_map i) as [b|] eqn:Eb; [| discriminate].
  clear H. unfold soln in Ea. unfold temp_map in Eb.
  destruct (pick (zip_with _ _ _) _) as [S|] eqn:ES; [| discriminate].
  destruct (pick (temperature i) _) as [T|] eqn:ET; [| discriminate].
  cbn [mbind option_bind] in Ea, Eb. unfold reshape in Ea.
  destruct (decide _) as [HlS|]; [| discriminate].
  apply pick_Some_range in ES as [HS1 HS2].
  apply pick_Some_range in ET as [HT1 HT2].
  assert (Hlenxy : length (zip_with analytical (X i) (Y i))
                   = length (coords i)).
  { unfold X, Y. rewrite length_zip_with_l_eq; by rewrite !length_map. }
  split; [| congruence].
  rewrite Forall_forall in HS2, HT2. apply Forall_forall. intros p Hp.
  split; [rewrite <- Hlenxy; by apply HS2 | by apply HT2].
Qed.

End PlateFacts.

Section PlateSums.
Import Thermal Plate.
Local Open Scope R_scope.

Lemma rows_entry {A} (r c : nat) (a : list A) :
  forall j k, (j < r)%nat -> (k < c)%nat ->
    entry (rows r c a) j k = a !! (j * c + k)%nat.
Proof.
  revert a. induction r as [|r IH]; intros a j k Hj Hk; [lia |].
  cbn [rows]. destruct j as [|j].
  - unfold entry. cbn. by rewrite lookup_take_lt.
  - change (entry (take c a :: rows r c (drop c a)) (S j) k)
      with (entry (rows r c (drop c a)) j k).
    rewrite (IH (drop c a) j k) by lia.
    rewrite lookup_drop. f_equal. lia.
Qed.

End PlateSums.

Section PlateExtras.
Import Thermal Plate.
Local Open Scope R_scope.

(** X12. The last print of the thermal notebook has its two numbers
    exactly when every internal pore has coordinates and a temperature
    and there are 10 x 50 internal pores; otherwise the picking of the
    pores or the reshaping raises an error before the print. *)
Theorem thermal_report_defined_iff (i : inputs) :
  is_Some (report i) <-> well_sized i.
Proof.
  split; [apply report_defined |]. intros Hw.
  destruct (extremes_of_zip Rminus i Hw) as (mn & mx & H & _).
  exists (mn, mx). exact H.
Qed.

(** X14. On the plate the analytical temperature lies between the
    outlet temperature 50 and 80, the largest inlet temperature. *)
Theorem thermal_analytical_range (x y : R) :
  0 <= x <= width -> 0 <= y <= height ->
  T_out <= analytical x y <= 80.
Proof.
  rewrite width_1, height_5. intros [Hx0 Hx1] [Hy0 Hy1].
  unfold analytical, T_out. pose proof sinh_PI5_pos as Hs.
  pose proof PI_RGT_0 as Hpi.
  assert (H1 : 0 <= sinh (PI * x / 5) <= sinh (PI / 5)).
  { split.
    - rewrite <- sinh_0. apply sinh_le.
      apply Rmult_le_pos; [| lra]. apply Rmult_le_pos; lra.
    - apply sinh_le. nra. }
  assert (H2 : 0 <= sin (PI * y / 5) <= 1).
  { split; [| apply SIN_bound].
    apply sin_ge_0; [apply Rmult_le_pos; [| lra]; apply Rmult_le_pos; lra
                    | nra]. }
  assert (H3 : 0 <= sinh (PI * x / 5) / sinh (PI / 5) <= 1).
  { split.
    - apply Rmult_le_pos; [lra |]. left. by apply Rinv_0_lt_compat.
    - apply Rmult_le_reg_r with (sinh (PI / 5)); [exact Hs |].
      unfold Rdiv. rewrite Rmult_assoc, Rinv_l by lra. lra. }
  replace (30 * sinh (PI * x / 5) / sinh (PI / 5) * sin (PI * y / 5))
    with (30 * (sinh (PI * x / 5) / sinh (PI / 5) * sin (PI * y / 5)))
    by (unfold Rdiv; ring).
  assert (H4 : 0 <= sinh (PI * x / 5) / sinh (PI / 5) * sin (PI * y / 5)
               <= 1) by nra.
  lra.
Qed.

Lemma thermal_analytical_range_witness :
  T_out <= analytical 0 0 <= 80.
Proof.
  apply (thermal_analytical_range 0 0).
  - rewrite width_1. lra.
  - rewrite height_5. lra.
Defined.

(** X16. The maps are filled row by row: for a well-sized input, the
    entry at row r and column c of the temperature map, of the
    analytical map and of their difference is the temperature, the
    analytical temperature and the error of the internal pore number
    50 r + c. *)
Theorem thermal_maps_row_major (i : inputs) (r c : nat) :
  well_sized i -> (r < divs.1)%nat -> (c < divs.2)%nat ->
  exists p co t,
    internal i !! (r * divs.2 + c)%nat = Some p /\
    coords i !! p = Some co /\ temperature i !! p = Some t /\
    (m ← temp_map i; entry m r c) = Some t /\
    (m ← soln i; entry m r c) = Some (analytical co.1.1 co.1.2) /\
    (m ← diff i; entry m r c) = Some (analytical co.1.1 co.1.2 - t) /\
    error_at i p = Some (analytical co.1.1 co.1.2 - t).
Proof.
  intros Hw Hr Hc.
  destruct (thermal_arrays i Hw) as (S & T & HS & HT & HlS & HlT
                                     & Hsoln & Htemp & Hdiff).
  destruct Hw as [_ Hlen].
  assert (Hk : (r * divs.2 + c < length (internal i))%nat).
  { rewrite Hlen. cbn in *. nia. }
  apply lookup_lt_is_Some_2 in Hk as [p Hp].
  apply mapM_Some_1 in HS, HT.
  destruct (Forall2_lookup_l _ _ _ _ _ HS Hp) as (a & Ha & Hpa).
  destruct (Forall2_lookup_l _ _ _ _ _ HT Hp) as (t & Ht & Hpt).
  apply analytical_lookup in Hpa as (co & Hco & ->).
  exists p, co, t. rewrite Hsoln, Htemp, Hdiff. cbn [mbind option_bind].
  rewrite !rows_entry by done.
  split; [exact Hp |]. split; [exact Hco |]. split; [exact Hpt |].
  split; [exact Ht |]. split; [exact Ha |]. split.
  - apply lookup_zip_with_Some. eauto.
  - unfold error_at, value_at. rewrite Hco, Hpt. reflexivity.
Qed.

Lemma thermal_maps_row_major_witness :
  exists p co t,
    internal flat_plate !! (3 * divs.2 + 7)%nat = Some p /\
    coords flat_plate !! p = Some co /\
    temperature flat_plate !! p = Some t /\
    (m ← temp_map flat_plate; entry m 3 7) = Some t.
Proof.
  destruct (thermal_maps_row_major flat_plate 3 7 flat_plate_well_sized)
    as (p & co & t & H1 & H2 & H3 & H4 & _).
  - cbn. lia.
  - cbn. lia.
  - exists p, co, t. auto.
Defined.

End PlateExtras.

